(** * Loan lifecycle back end (main.go): a shallow embedding

    The Go program keeps loan, approval and return records in three sheets of
    one spreadsheet, renders documents from templates and notifies people by
    a messaging gateway.  This development embeds the phone normaliser, the
    message sender and the four HTTP handlers of [main.go], and states the
    properties of the specification about them.

    Go strings are byte sequences: they are [string]s here, one [ascii] per
    byte.  Go [int] is 64 bits wide; it is a [Z], and the only place where
    the width matters ([strconv.Atoi]) writes the bounds out. *)

From Stdlib Require Import ZArith Ascii String.
From Stdlib Require Import Numbers.DecimalString Numbers.DecimalPos.
From stdpp Require Import base option list strings gmap.

Local Open Scope Z_scope.

(** ** The pieces of the Go standard library the program calls *)

Module GoStrings.

(** [s[1:]] for a string already known to be non-empty. *)
Definition tail1 (s : string) : string :=
  match s with
  | EmptyString => EmptyString
  | String _ r => r
  end.

(** [strings.HasPrefix(s, p)]. *)
Fixpoint HasPrefix (s p : string) {struct p} : bool :=
  match p with
  | EmptyString => true
  | String b p' =>
      match s with
      | EmptyString => false
      | String a s' => (Ascii.eqb a b && HasPrefix s' p')%bool
      end
  end.

(** [strings.ReplaceAll(s, c, "")] for a one-byte [c]: every occurrence of
    the byte is dropped. *)
Fixpoint removeAll (c : ascii) (s : string) : string :=
  match s with
  | EmptyString => EmptyString
  | String a r =>
      if Ascii.eqb a c then removeAll c r else String a (removeAll c r)
  end.

(** [strings.TrimLeft(s, c)] for a one-byte cutset [c]. *)
Fixpoint trimLeftByte (c : ascii) (s : string) : string :=
  match s with
  | EmptyString => EmptyString
  | String a r => if Ascii.eqb a c then trimLeftByte c r else s
  end.

(** The [asciiSpace] table of package strings: tab, line feed, vertical
    tab, form feed, carriage return and space. *)
Definition isAsciiSpace (c : ascii) : bool :=
  match c with
  | "009" | "010" | "011" | "012" | "013" | " " => true
  | _ => false
  end%char.

Definition byteIn (lo hi : N) (c : ascii) : bool :=
  (N.leb lo (N_of_ascii c) && N.leb (N_of_ascii c) hi)%bool.

(** The two-byte UTF-8 encodings of the white-space runes of
    [unicode.IsSpace]: U+0085 and U+00A0. *)
Definition isSpace2 (c d : ascii) : bool :=
  (Ascii.eqb c "194" &&
     (Ascii.eqb d "133" || Ascii.eqb d "160"))%bool.

(** The three-byte ones: U+1680, U+2000 to U+200A, U+2028, U+2029, U+202F,
    U+205F and U+3000. *)
Definition isSpace3 (c d e : ascii) : bool :=
  (Ascii.eqb c "225" && Ascii.eqb d "154" && Ascii.eqb e "128"
   || Ascii.eqb c "226" && Ascii.eqb d "128" &&
        (byteIn 128 138 e || Ascii.eqb e "168" || Ascii.eqb e "169"
         || Ascii.eqb e "175")
   || Ascii.eqb c "226" && Ascii.eqb d "129" && Ascii.eqb e "159"
   || Ascii.eqb c "227" && Ascii.eqb d "128" && Ascii.eqb e "128")%bool.

(** Leading white space: while the string starts with the encoding of a
    white-space rune, that rune is dropped ([TrimLeftFunc] with
    [unicode.IsSpace]; a byte sequence that is not valid UTF-8 decodes to
    [RuneError], which is not white space, so the scan stops there). *)
Fixpoint trimLeftSpace (s : string) : string :=
  match s with
  | EmptyString => EmptyString
  | String c r =>
      if isAsciiSpace c then trimLeftSpace r
      else
        match r with
        | EmptyString => s
        | String d r2 =>
            if isSpace2 c d then trimLeftSpace r2
            else
              match r2 with
              | EmptyString => s
              | String e r3 =>
                  if isSpace3 c d e then trimLeftSpace r3 else s
              end
        end
  end.

(** A string made of white-space runes only. *)
Definition allSpace (s : string) : bool :=
  match trimLeftSpace s with
  | EmptyString => true
  | String _ _ => false
  end.

(** Trailing white space: the longest suffix made of white-space runes is
    dropped ([TrimRightFunc] with [unicode.IsSpace], which removes the
    last rune while it is white space). *)
Fixpoint trimRightSpace (s : string) : string :=
  match s with
  | EmptyString => EmptyString
  | String c r =>
      if allSpace s then EmptyString else String c (trimRightSpace r)
  end.

(** [strings.TrimSpace]. *)
Definition TrimSpace (s : string) : string :=
  trimRightSpace (trimLeftSpace s).

(** The decimal digits of a string, most significant first; [None] when
    some byte is not a digit. *)
Definition digitVal (c : ascii) : option Z :=
  if byteIn 48 57 c then Some (Z.of_N (N_of_ascii c) - 48) else None.

Fixpoint digitsVal (acc : Z) (s : string) : option Z :=
  match s with
  | EmptyString => Some acc
  | String c r =>
      match digitVal c with
      | Some d => digitsVal (10 * acc + d) r
      | None => None
      end
  end.

Definition maxInt : Z := 2 ^ 63 - 1.
Definition minInt : Z := - 2 ^ 63.

(** [strconv.Atoi]: the value and whether the error is nil.  A syntax
    error gives 0, a range error the nearest bound. *)
Definition Atoi (s : string) : Z * bool :=
  match s with
  | EmptyString => (0, false)
  | String c r =>
      let neg := Ascii.eqb c "-" in
      let ds := if (neg || Ascii.eqb c "+")%bool then r else s in
      match ds with
      | EmptyString => (0, false)
      | String _ _ =>
          match digitsVal 0 ds with
          | None => (0, false)
          | Some n =>
              if neg then
                if n <=? 2 ^ 63 then (- n, true) else (minInt, false)
              else
                if n <=? maxInt then (n, true) else (maxInt, false)
          end
      end
  end.

(** [strconv.Itoa] and the verb [%d]. *)
Definition Itoa (n : Z) : string :=
  NilZero.string_of_int (Z.to_int n).

Fixpoint zeros (n : nat) : string :=
  match n with
  | O => EmptyString
  | S k => String "0" (zeros k)
  end.

(** The verb [%04d]: the width counts the sign, the zeros come after it. *)
Definition pad04 (n : Z) : string :=
  let digits := Itoa (Z.abs n) in
  let sign := if n <? 0 then "-" else "" in
  let used := (String.length sign + String.length digits)%nat in
  sign +:+ zeros (4 - used) +:+ digits.

End GoStrings.

Import GoStrings.

(** ** normalizePhoneNumber *)

Definition normalizePhoneNumber (no : string) : string :=
  let no := TrimSpace no in
  let no := removeAll " " no in
  let no := removeAll "-" no in
  let no := removeAll "(" no in
  let no := removeAll ")" no in
  if HasPrefix no "+" then "62" +:+ tail1 no
  else if HasPrefix no "0" then "62" +:+ tail1 no
  else if HasPrefix no "62" then no
  else "".

(** ** The outside world

    The handlers talk to four collaborators: the spreadsheet (the ledger),
    the document and storage services, the messaging gateway, and the local
    clock, files and environment.  A [World] answers every call; each
    answer may depend on the calls made so far, so that two reads of the
    same range need not agree.  A run leaves a chronological [trace] of the
    calls it made and of what it logged. *)

(** A row of a sheet as [Values.Get] returns it.  The program formats each
    cell with the verb [%v]; the service returns formatted text, so a cell
    is the string that verb prints. *)
Definition row := list string.

(** [*sheets.ValueRange]: the field [Values] is a slice, [None] when nil. *)
Record ValueRange := { Values : option (list row) }.

(** [len] and [range] treat a nil slice as an empty one. *)
Definition rowsOf (vr : ValueRange) : list row := default [] (Values vr).

(** The two results of [Values.Get(...).Do()]: an error, or a response that
    the program tests against nil. *)
Inductive getResult :=
| GetErr
| GetOk (resp : option ValueRange).

(** The cell a write starts at: [fmt.Sprintf("Form Peminjam!Q%d", rowIndex)]
    is sheet [Form Peminjam], column 16 (counting from A = 0), line
    [rowIndex]. *)
Record cellRef := { ref_sheet : string; ref_col : nat; ref_line : Z }.

Global Instance cellRef_eq_dec : EqDecision cellRef.
Proof. solve_decision. Defined.

Definition colA : nat := 0.
Definition colC : nat := 2.
Definition colQ : nat := 16.
Definition colR : nat := 17.
Definition colS : nat := 18.

(** A message: the name of its text and the values interpolated into it, in
    the order of the arguments of [fmt.Sprintf]. *)
Record message := { msg_text : string; msg_args : list string }.

(** What the gateway answers to a POST: a transport error or a status. *)
Inductive postResult :=
| PostErr
| PostStatus (code : Z).

(** A request to the document service: the template copied, the title of
    the copy, the text substitutions of the batch update and the images put
    at the placeholders [<<FOTO>>] and [<<FOTO2>>]. *)
Record renderRequest := {
  rr_template : string;
  rr_title : string;
  rr_replacements : gmap string string;
  rr_foto : string;
  rr_foto2 : string
}.

Inductive event :=
| Log (line : string)
| Reply (status : Z) (body : string)
| SaveFile (filename : string)
| Upload (localPath : string) (ok : bool)
| RemoveFile (localPath : string)
| SheetsGet (range : string) (res : getResult)
| SheetsUpdate (at_ : cellRef) (values : list string) (ok : bool)
| Render (req : renderRequest) (ok : bool)
| HttpPost (number : string) (pesan : message) (res : postResult).

Definition trace := list event.

Record World := {
  (** [os.ReadFile("credentials.json")] and the parsing of its content *)
  credentials_ok : trace → bool;
  sheets_get : trace → string → getResult;
  sheets_update : trace → cellRef → list string → bool;
  (** [saveFileLocally]: the path of the staged file, empty on error *)
  save_file : trace → string → string;
  (** [uploadToDrive]: the public URL, or an error *)
  upload_to_drive : trace → string → option string;
  (** the document service: the URLs of the PDF and of the document *)
  render : trace → renderRequest → option (string * string);
  wa_post : trace → string → message → postResult;
  (** [time.Now()]: its hour and its text under a layout *)
  now_hour : trace → Z;
  now_format : trace → string → string;
  (** the number of days from one [2006-01-02] date to another, as
      [parseTanggal(b).Sub(parseTanggal(a)).Hours()/24] truncates it *)
  days_between : string → string → Z;
  getenv : string → string
}.

(** How a piece of a handler ends: with a value, by [return] out of the
    handler, or by a run-time panic (an index out of range). *)
Inductive result (A : Type) :=
| Done (a : A)
| Returned
| Panicked.
Arguments Done {A} a.
Arguments Returned {A}.
Arguments Panicked {A}.

Definition M (A : Type) : Type := World → trace → result A * trace.

Global Instance M_ret : MRet M := λ A a _ tr, (Done a, tr).

Global Instance M_bind : MBind M := λ A B f m w tr,
  match m w tr with
  | (Done a, tr') => f a w tr'
  | (Returned, tr') => (Returned, tr')
  | (Panicked, tr') => (Panicked, tr')
  end.

Definition emit (e : event) : M unit := λ _ tr, (Done (), tr ++ [e]).
Definition return_ {A} : M A := λ _ tr, (Returned, tr).
Definition panic {A} : M A := λ _ tr, (Panicked, tr).
Definition log (line : string) : M unit := emit (Log line).

(** [http.Error(w, body, status)], and [w.Write(body)] with status 200. *)
Definition httpError (body : string) (status : Z) : M unit :=
  emit (Reply status body).
Definition write (body : string) : M unit := emit (Reply 200 body).

Definition askWorld : M World := λ w tr, (Done w, tr).

Definition getServices : M bool := λ w tr, (Done (credentials_ok w tr), tr).

Definition valuesGet (range : string) : M getResult := λ w tr,
  let res := sheets_get w tr range in
  (Done res, tr ++ [SheetsGet range res]).

Definition valuesUpdate (at_ : cellRef) (values : list string) : M bool :=
  λ w tr,
  let ok := sheets_update w tr at_ values in
  (Done ok, tr ++ [SheetsUpdate at_ values ok]).

Definition post (number : string) (pesan : message) : M postResult :=
  λ w tr,
  let res := wa_post w tr number pesan in
  (Done res, tr ++ [HttpPost number pesan res]).

(** [uploadToDrive(localPath, filepath.Base(localPath), driveService)]. *)
Definition uploadToDrive (localPath : string) : M (option string) :=
  λ w tr,
  let res := upload_to_drive w tr localPath in
  (Done res, tr ++ [Upload localPath (bool_decide (is_Some res))]).

(** [localPath, _ = saveFileLocally(file, handler.Filename)]. *)
Definition saveFileLocally (filename : string) : M string :=
  λ w tr, (Done (save_file w tr filename), tr ++ [SaveFile filename]).

Definition timeNowFormat (layout : string) : M string :=
  λ w tr, (Done (now_format w tr layout), tr).

Definition osGetenv (key : string) : M string :=
  λ w tr, (Done (getenv w key), tr).

(** The run of a handler from an empty history. *)
Definition run {A} (m : M A) (w : World) : result A * trace := m w [].

(** ** kirimPesanWaBangkit *)

(** A Go [error]: [None] is nil. *)
Definition error := option string.

Definition kirimPesanWaBangkit (no : string) (pesan : message) : M error :=
  let no := normalizePhoneNumber no in
  if negb (HasPrefix no "62") then
    mret (Some "Format nomor WA tidak valid (harus 62...), silakan isi ulang")
  else
    resp ← post no pesan;
    match resp with
    | PostErr => mret (Some "transport error")
    | PostStatus code =>
        if 300 <=? code then mret (Some "WA API error") else mret None
    end.

(** ** Looking a loan up in the rows of a sheet *)

(** [fmt.Sprintf("%v", row[i])] under the guard [len(row) > i]; the
    variable keeps its zero value, the empty string, when the guard fails. *)
Definition col (r : row) (i : nat) : string := default "" (r !! i).

(** The test of the loop of [handleApprove]:
    [len(row) > 0 && fmt.Sprintf("%v", row[0]) == idPinjam]. *)
Definition exactMatch (idPinjam : string) (r : row) : bool :=
  match r with
  | [] => false
  | c :: _ => String.eqb c idPinjam
  end.

(** The test of the loops of [handleApprovalRequestNew] and
    [handlePengembalian]: both sides lose their leading zeros,
    [strings.TrimLeft(sheetID, "0") == strings.TrimLeft(idPinjam, "0")]. *)
Definition tolerantMatch (idPinjam : string) (r : row) : bool :=
  match r with
  | [] => false
  | c :: _ => String.eqb (trimLeftByte "0" c) (trimLeftByte "0" idPinjam)
  end.

(** [for i, row := range rows { if test(row) { ...; break } }]: the index
    and the row of the first iteration whose test holds. *)
Fixpoint findRowFrom (test : row → bool) (i : Z) (rows : list row)
  : option (Z * row) :=
  match rows with
  | [] => None
  | r :: rest =>
      if test r then Some (i, r) else findRowFrom test (i + 1) rest
  end.

Definition findRow (test : row → bool) (rows : list row) : option (Z * row) :=
  findRowFrom test 0 rows.

(** ** handleApprove: the approval that only marks the loan row *)

Record approveRequest := {
  ar_idPinjam : string;
  ar_approver : string;
  ar_statusPersetujuan : string
}.

Definition missingField (q : approveRequest) : bool :=
  (String.eqb (ar_idPinjam q) "" || String.eqb (ar_approver q) ""
   || String.eqb (ar_statusPersetujuan q) "")%bool.

(** The loop of [handleApprove]: [rowIndex], or -1. *)
Definition approveRowIndex (idPinjam : string) (rows : list row) : Z :=
  match findRow (exactMatch idPinjam) rows with
  | Some (i, _) => i + 5
  | None => -1
  end.

Definition formPeminjam (column : nat) (line : Z) : cellRef :=
  {| ref_sheet := "Form Peminjam"; ref_col := column; ref_line := line |}.

Definition handleApprove (q : approveRequest) : M unit :=
  if missingField q then
    httpError "ID Pinjam, Approver, dan Status Persetujuan harus diisi" 400;;
    return_
  else
  ok ← getServices;
  if negb ok then
    httpError "Gagal inisialisasi layanan" 500;;
    log "Service error";; return_
  else
  resp ← valuesGet "Form Peminjam!A5:A";
  match resp with
  | GetErr =>
      httpError "Gagal mengambil data dari Sheets" 500;;
      log "Sheets get error";; return_
  | GetOk None | GetOk (Some {| Values := None |}) =>
      httpError "Data peminjaman kosong" 500;;
      log "Empty peminjaman data";; return_
  | GetOk (Some {| Values := Some rows |}) =>
      let rowIndex := approveRowIndex (ar_idPinjam q) rows in
      if rowIndex =? -1 then
        httpError "ID Pinjam tidak ditemukan" 400;; return_
      else
      ok ← valuesUpdate (formPeminjam colQ rowIndex) [ar_statusPersetujuan q];
      if negb ok then
        httpError "Gagal update status approval" 500;;
        log "Sheets update error (status)";; return_
      else
      stamp ← timeNowFormat "2006-01-02 15:04:05";
      ok ← valuesUpdate (formPeminjam colR rowIndex) [stamp];
      if negb ok then
        httpError "Gagal update tanggal persetujuan" 500;;
        log "Sheets update error (date)";; return_
      else
      ok ← valuesUpdate (formPeminjam colS rowIndex) [ar_approver q];
      if negb ok then
        httpError "Gagal update nama approver" 500;;
        log "Sheets update error (approver)";; return_
      else
      write "Approval berhasil dikirim"
  end.

(** ** FormData and the three documents *)

Record FormData := {
  Nama : string;
  Kelas : string;
  NIS : string;
  NoWA : string;
  NamaAlat : string;
  JumlahAlat : Z;
  TanggalPinjam : string;
  TanggalKembali : string;
  Keterangan : string;
  KeteranganPinjam : string;
  FotoPath : string;
  PeminjamanFotoPath : string;
  ApprovalStatus : string;
  KondisiAlat : string;
  KeteranganPengembalian : string;
  ApprovalDate : string;
  ApproverName : string
}.

(** The zero value of the struct. *)
Definition zeroForm : FormData :=
  {| Nama := ""; Kelas := ""; NIS := ""; NoWA := ""; NamaAlat := "";
     JumlahAlat := 0; TanggalPinjam := ""; TanggalKembali := "";
     Keterangan := ""; KeteranganPinjam := ""; FotoPath := "";
     PeminjamanFotoPath := ""; ApprovalStatus := ""; KondisiAlat := "";
     KeteranganPengembalian := ""; ApprovalDate := ""; ApproverName := "" |}.

(** Assignments to one field. *)
Definition setNama (v : string) (f : FormData) : FormData :=
  {| Nama := v; Kelas := Kelas f; NIS := NIS f; NoWA := NoWA f;
     NamaAlat := NamaAlat f; JumlahAlat := JumlahAlat f;
     TanggalPinjam := TanggalPinjam f; TanggalKembali := TanggalKembali f;
     Keterangan := Keterangan f; KeteranganPinjam := KeteranganPinjam f;
     FotoPath := FotoPath f; PeminjamanFotoPath := PeminjamanFotoPath f;
     ApprovalStatus := ApprovalStatus f; KondisiAlat := KondisiAlat f;
     KeteranganPengembalian := KeteranganPengembalian f;
     ApprovalDate := ApprovalDate f; ApproverName := ApproverName f |}.

Definition setNoWA (v : string) (f : FormData) : FormData :=
  {| Nama := Nama f; Kelas := Kelas f; NIS := NIS f; NoWA := v;
     NamaAlat := NamaAlat f; JumlahAlat := JumlahAlat f;
     TanggalPinjam := TanggalPinjam f; TanggalKembali := TanggalKembali f;
     Keterangan := Keterangan f; KeteranganPinjam := KeteranganPinjam f;
     FotoPath := FotoPath f; PeminjamanFotoPath := PeminjamanFotoPath f;
     ApprovalStatus := ApprovalStatus f; KondisiAlat := KondisiAlat f;
     KeteranganPengembalian := KeteranganPengembalian f;
     ApprovalDate := ApprovalDate f; ApproverName := ApproverName f |}.

Definition setFotoPath (v : string) (f : FormData) : FormData :=
  {| Nama := Nama f; Kelas := Kelas f; NIS := NIS f; NoWA := NoWA f;
     NamaAlat := NamaAlat f; JumlahAlat := JumlahAlat f;
     TanggalPinjam := TanggalPinjam f; TanggalKembali := TanggalKembali f;
     Keterangan := Keterangan f; KeteranganPinjam := KeteranganPinjam f;
     FotoPath := v; PeminjamanFotoPath := PeminjamanFotoPath f;
     ApprovalStatus := ApprovalStatus f; KondisiAlat := KondisiAlat f;
     KeteranganPengembalian := KeteranganPengembalian f;
     ApprovalDate := ApprovalDate f; ApproverName := ApproverName f |}.

Definition setPeminjamanFotoPath (v : string) (f : FormData) : FormData :=
  {| Nama := Nama f; Kelas := Kelas f; NIS := NIS f; NoWA := NoWA f;
     NamaAlat := NamaAlat f; JumlahAlat := JumlahAlat f;
     TanggalPinjam := TanggalPinjam f; TanggalKembali := TanggalKembali f;
     Keterangan := Keterangan f; KeteranganPinjam := KeteranganPinjam f;
     FotoPath := FotoPath f; PeminjamanFotoPath := v;
     ApprovalStatus := ApprovalStatus f; KondisiAlat := KondisiAlat f;
     KeteranganPengembalian := KeteranganPengembalian f;
     ApprovalDate := ApprovalDate f; ApproverName := ApproverName f |}.

Definition setKeteranganPinjam (v : string) (f : FormData) : FormData :=
  {| Nama := Nama f; Kelas := Kelas f; NIS := NIS f; NoWA := NoWA f;
     NamaAlat := NamaAlat f; JumlahAlat := JumlahAlat f;
     TanggalPinjam := TanggalPinjam f; TanggalKembali := TanggalKembali f;
     Keterangan := Keterangan f; KeteranganPinjam := v;
     FotoPath := FotoPath f; PeminjamanFotoPath := PeminjamanFotoPath f;
     ApprovalStatus := ApprovalStatus f; KondisiAlat := KondisiAlat f;
     KeteranganPengembalian := KeteranganPengembalian f;
     ApprovalDate := ApprovalDate f; ApproverName := ApproverName f |}.

Definition setApprovalDate (v : string) (f : FormData) : FormData :=
  {| Nama := Nama f; Kelas := Kelas f; NIS := NIS f; NoWA := NoWA f;
     NamaAlat := NamaAlat f; JumlahAlat := JumlahAlat f;
     TanggalPinjam := TanggalPinjam f; TanggalKembali := TanggalKembali f;
     Keterangan := Keterangan f; KeteranganPinjam := KeteranganPinjam f;
     FotoPath := FotoPath f; PeminjamanFotoPath := PeminjamanFotoPath f;
     ApprovalStatus := ApprovalStatus f; KondisiAlat := KondisiAlat f;
     KeteranganPengembalian := KeteranganPengembalian f;
     ApprovalDate := v; ApproverName := ApproverName f |}.

Definition setApprovalStatus (v : string) (f : FormData) : FormData :=
  {| Nama := Nama f; Kelas := Kelas f; NIS := NIS f; NoWA := NoWA f;
     NamaAlat := NamaAlat f; JumlahAlat := JumlahAlat f;
     TanggalPinjam := TanggalPinjam f; TanggalKembali := TanggalKembali f;
     Keterangan := Keterangan f; KeteranganPinjam := KeteranganPinjam f;
     FotoPath := FotoPath f; PeminjamanFotoPath := PeminjamanFotoPath f;
     ApprovalStatus := v; KondisiAlat := KondisiAlat f;
     KeteranganPengembalian := KeteranganPengembalian f;
     ApprovalDate := ApprovalDate f; ApproverName := ApproverName f |}.

Definition setApproverName (v : string) (f : FormData) : FormData :=
  {| Nama := Nama f; Kelas := Kelas f; NIS := NIS f; NoWA := NoWA f;
     NamaAlat := NamaAlat f; JumlahAlat := JumlahAlat f;
     TanggalPinjam := TanggalPinjam f; TanggalKembali := TanggalKembali f;
     Keterangan := Keterangan f; KeteranganPinjam := KeteranganPinjam f;
     FotoPath := FotoPath f; PeminjamanFotoPath := PeminjamanFotoPath f;
     ApprovalStatus := ApprovalStatus f; KondisiAlat := KondisiAlat f;
     KeteranganPengembalian := KeteranganPengembalian f;
     ApprovalDate := ApprovalDate f; ApproverName := v |}.

(** [fmt.Sprintf("%d hari", int(... .Hours()/24))]. *)
Definition lamaPinjam (w : World) (f : FormData) : string :=
  Itoa (days_between w (TanggalPinjam f) (TanggalKembali f)) +:+ " hari".

(** The document service as one step: the copy of the template, the batch
    of substitutions, the images, the export and its upload.  [None] is an
    error of a step that makes the function return one. *)
Definition renderDocument (req : renderRequest) : M (option (string * string)) :=
  λ w tr,
  let res := render w tr req in
  (Done res, tr ++ [Render req (bool_decide (is_Some res))]).

(** The substitutions common to the three documents. *)
Definition baseReplacements (w : World) (today : string) (f : FormData)
    (nomorUrut : Z) (ket : string) : gmap string string :=
  <["<<NMR>>" := pad04 nomorUrut]>
  (<["<<TGL>>" := today]>
  (<["<<NAMA>>" := Nama f]>
  (<["<<KLS>>" := Kelas f]>
  (<["<<NIS>>" := NIS f]>
  (<["<<NO>>" := NoWA f]>
  (<["<<NMALT>>" := NamaAlat f]>
  (<["<<JML>>" := Itoa (JumlahAlat f)]>
  (<["<<TGLPMJ>>" := TanggalPinjam f]>
  (<["<<TGLPGN>>" := TanggalKembali f]>
  (<["<<LMPJM>>" := lamaPinjam w f]>
  (<["<<KET>>" := ket]> ∅))))))))))).

Definition generateSurat (form : FormData) (nomorUrut : Z)
  : M (option (string * string)) :=
  today ← timeNowFormat "02 January 2006";
  w ← askWorld;
  renderDocument
    {| rr_template := "1RK2I4oAUvPFTlv98Hp5bDlassulBFvrASuhs5-riVUM";
       rr_title := "Formulir Peminjaman " +:+ pad04 nomorUrut +:+ " - "
                   +:+ Nama form;
       rr_replacements :=
         baseReplacements w today form nomorUrut (Keterangan form);
       rr_foto := FotoPath form;
       rr_foto2 := "" |}.

Definition generateSuratApproval (form : FormData) (nomorUrut : Z)
    (approver statusPersetujuan : string) : M (option (string * string)) :=
  today ← timeNowFormat "02 January 2006";
  stamp ← timeNowFormat "02 January 2006 15:04";
  w ← askWorld;
  renderDocument
    {| rr_template := "1NVr2LHlDrrqEJJTrCJed3AnQTncs5ZMU6Lu0wO1RlRs";
       rr_title := "Formulir Approval " +:+ pad04 nomorUrut +:+ " - "
                   +:+ Nama form;
       rr_replacements :=
         <["<<TGLPS>>" := stamp]>
         (<["<<STS>>" := statusPersetujuan]>
         (<["<<YNG>>" := approver]>
         (baseReplacements w today form nomorUrut (Keterangan form))));
       rr_foto := PeminjamanFotoPath form;
       rr_foto2 := "" |}.

(** In [generateSuratPengembalian] the second image is handled inside the
    branch of the first one: it is placed only when the loan photo is
    there. *)
Definition generateSuratPengembalian (form : FormData) (nomorUrut : Z)
  : M (option (string * string)) :=
  today ← timeNowFormat "02 January 2006";
  w ← askWorld;
  renderDocument
    {| rr_template := "1aBpU0yBFFjVdMjYtuB5skHY4m5pCKlVlMCdzq5Ib9Y0";
       rr_title := "Formulir Pengembalian " +:+ pad04 nomorUrut +:+ " - "
                   +:+ Nama form;
       rr_replacements :=
         <["<<TGLBALI>>" := today]>
         (<["<<KNDS>>" := KondisiAlat form]>
         (<["<<KETALT>>" := KeteranganPengembalian form]>
         (<["<<TGLPS>>" := ApprovalDate form]>
         (<["<<STS>>" := ApprovalStatus form]>
         (<["<<YNG>>" := ApproverName form]>
         (baseReplacements w today form nomorUrut
            (KeteranganPinjam form)))))));
       rr_foto := PeminjamanFotoPath form;
       rr_foto2 := if String.eqb (PeminjamanFotoPath form) "" then ""
                   else FotoPath form |}.

(** ** getSalam *)

Definition getSalam : M string := λ w tr,
  let hour := now_hour w tr in
  (Done (if hour <? 11 then "Selamat pagi"
         else if hour <? 15 then "Selamat siang"
         else if hour <? 18 then "Selamat sore"
         else "Selamat malam"), tr).

(** Sending one notification and logging how it went, as every call site
    does: [err = kirimPesanWaBangkit(no, pesan); if err != nil { log } else
    { log }]. *)
Definition kirimDanCatat (no : string) (pesan : message)
    (gagal terkirim : string) : M unit :=
  err ← kirimPesanWaBangkit no pesan;
  match err with
  | Some _ => log gagal
  | None => log terkirim
  end.

(** [normalizedNo == "" || !strings.HasPrefix(normalizedNo, "62")]. *)
Definition tidakValid (normalizedNo : string) : bool :=
  (String.eqb normalizedNo "" || negb (HasPrefix normalizedNo "62"))%bool.

(** [os.Getenv("APPROVER_NO")] with its default. *)
Definition approverNumber : M string :=
  approverNo ← osGetenv "APPROVER_NO";
  mret (if String.eqb approverNo "" then "6287760573989" else approverNo).

(** ** handleApprovalRequestNew: the approval that renders a document *)

(** The first loop over the loan rows fills the details of the borrower,
    the second one the photo of the loan; both stop at the first row whose
    identifier matches. *)
Definition approvalForm (idPinjam : string) (rows : list row) : FormData :=
  let hit := findRow (tolerantMatch idPinjam) rows in
  let form :=
    match hit with
    | Some (_, r) =>
        {| Nama := col r 2; Kelas := col r 3; NIS := col r 4;
           NoWA := match r !! 5%nat with
                   | Some v => TrimSpace v
                   | None => ""
                   end;
           NamaAlat := col r 6;
           JumlahAlat := match r !! 7%nat with
                         | Some v => fst (Atoi v)
                         | None => 0
                         end;
           TanggalPinjam := col r 8; TanggalKembali := col r 9;
           Keterangan := col r 11; KeteranganPinjam := ""; FotoPath := "";
           PeminjamanFotoPath := ""; ApprovalStatus := ""; KondisiAlat := "";
           KeteranganPengembalian := ""; ApprovalDate := "";
           ApproverName := "" |}
    | None => zeroForm
    end in
  match hit with
  | Some (_, r) =>
      match r !! 12%nat with
      | Some v => setPeminjamanFotoPath v form
      | None => form
      end
  | None => form
  end.

(** The number of the next approval row: [rowNum], 6 when the response or
    its values are nil. *)
Definition approvalRowNum (resp : option ValueRange) : Z :=
  match resp with
  | Some {| Values := Some rows |} => Z.of_nat (length rows) + 6
  | _ => 6
  end.

Definition approvalSheet (column : nat) (line : Z) : cellRef :=
  {| ref_sheet := "Approval Peminjaman"; ref_col := column;
     ref_line := line |}.

(** The number of the borrower read for the notification: column F of the
    first row that matches, by the test given. *)
Definition noWAOf (test : row → bool) (rows : list row) : string :=
  match findRow test rows with
  | Some (_, r) =>
      match r !! 5%nat with
      | Some v => TrimSpace v
      | None => ""
      end
  | None => ""
  end.

Definition handleApprovalRequestNew (q : approveRequest) : M unit :=
  let idPinjam := ar_idPinjam q in
  let approver := ar_approver q in
  let statusPersetujuan := ar_statusPersetujuan q in
  if missingField q then
    httpError "ID Pinjam, Approver, dan Status Persetujuan harus diisi" 400;;
    return_
  else
  ok ← getServices;
  if negb ok then
    httpError "Gagal inisialisasi layanan" 500;;
    log "Service error";; return_
  else
  resp ← valuesGet "Form Peminjam!A5:Z";
  match resp with
  | GetErr =>
      httpError "Gagal mengambil data dari Sheets" 500;;
      log "Sheets get error";; return_
  | GetOk None | GetOk (Some {| Values := None |}) =>
      httpError "Data peminjaman kosong" 500;;
      log "Empty peminjaman data";; return_
  | GetOk (Some {| Values := Some rows |}) =>
      let form := approvalForm idPinjam rows in
      let nomorUrut :=
        let '(n, ok) := Atoi idPinjam in if ok then n else 1 in
      doc ← generateSuratApproval form nomorUrut approver statusPersetujuan;
      match doc with
      | None =>
          httpError "Gagal membuat dokumen approval" 500;;
          log "generateSuratApproval error";; return_
      | Some (docURL, _) =>
          respApproval ← valuesGet "Approval Peminjaman!A6:F";
          match respApproval with
          | GetErr =>
              httpError "Gagal mengambil data dari sheet approval" 500;;
              log "Sheets get error";; return_
          | GetOk respApproval =>
              let rowNum := approvalRowNum respApproval in
              today ← timeNowFormat "2006-01-02";
              ok ← valuesUpdate (approvalSheet colA rowNum)
                     [pad04 (rowNum - 5); today; Nama form; approver;
                      idPinjam; statusPersetujuan];
              if negb ok then
                httpError "Gagal update data ke sheet approval" 500;;
                log "Sheets update error";; return_
              else
              let noWAApproval := noWAOf (tolerantMatch idPinjam) rows in
              salam ← getSalam;
              let pesanPeminjam :=
                {| msg_text := "approval-peminjam";
                   msg_args := [salam; Nama form; NamaAlat form;
                                Itoa (JumlahAlat form); TanggalPinjam form;
                                TanggalKembali form; statusPersetujuan;
                                approver; docURL] |} in
              let normalizedNoWA := normalizePhoneNumber noWAApproval in
              (if tidakValid normalizedNoWA then
                 log "Nomor WA peminjam untuk approval tidak valid";;
                 let noWAFallback := noWAOf (exactMatch idPinjam) rows in
                 let normalizedFallback :=
                   normalizePhoneNumber noWAFallback in
                 if negb (tidakValid normalizedFallback) then
                   kirimDanCatat normalizedFallback pesanPeminjam
                     "Gagal kirim WA ke peminjam dengan fallback"
                     "WA terkirim ke peminjam dengan fallback"
                 else mret ()
               else
                 kirimDanCatat normalizedNoWA pesanPeminjam
                   "Gagal kirim WA ke peminjam" "WA terkirim ke peminjam");;
              approverNo ← approverNumber;
              kirimDanCatat approverNo
                {| msg_text := "approval-approver";
                   msg_args := [salam; approver; idPinjam; Nama form;
                                statusPersetujuan; docURL] |}
                "Gagal kirim WA ke approver" "WA terkirim ke approver";;
              write "Permohonan persetujuan berhasil diproses"
          end
      end
  end.

(** ** handlePengembalian: the return of a loan *)

Record returnRequest := {
  rq_method : string;
  rq_idPeminjam : string;
  rq_kondisiAlat : string;
  rq_keteranganPengembalian : string;
  (** the name of the uploaded file [foto], when the form has one *)
  rq_foto : option string
}.

(** The assignments made from the loan row that matches.  Columns C to J
    are indexed without a test of the length of the row: a shorter row
    makes the program panic, which is [None] here. *)
Definition returnForm (r : row) (kondisiAlat keteranganPengembalian : string)
  : option FormData :=
  nama ← r !! 2%nat;
  kelas ← r !! 3%nat;
  nis ← r !! 4%nat;
  noWA ← r !! 5%nat;
  namaAlat ← r !! 6%nat;
  jumlah ← r !! 7%nat;
  tglPinjam ← r !! 8%nat;
  tglKembali ← r !! 9%nat;
  let form :=
    {| Nama := nama; Kelas := kelas; NIS := nis; NoWA := noWA;
       NamaAlat := namaAlat; JumlahAlat := fst (Atoi jumlah);
       TanggalPinjam := tglPinjam; TanggalKembali := tglKembali;
       Keterangan := ""; KeteranganPinjam := ""; FotoPath := "";
       PeminjamanFotoPath := ""; ApprovalStatus := "";
       KondisiAlat := kondisiAlat;
       KeteranganPengembalian := keteranganPengembalian;
       ApprovalDate := ""; ApproverName := "" |} in
  let form :=
    match r !! 10%nat with
    | Some v => setKeteranganPinjam v form
    | None => form
    end in
  Some match r !! 12%nat with
       | Some v => setPeminjamanFotoPath v form
       | None => form
       end.

(** The test of the loop over the approval rows: the row has a fifth
    column, and it matches the identifier once the leading zeros of both
    are gone. *)
Definition approvalMatch (idPeminjam : string) (a : row) : bool :=
  match a !! 4%nat with
  | Some c => String.eqb (trimLeftByte "0" c) (trimLeftByte "0" idPeminjam)
  | None => false
  end.

(** The loop over the approval rows: the date, the status and the approver
    of the first row that matches, then [break]. *)
Definition joinApproval (idPeminjam : string) (approvalRows : list row)
    (form : FormData) : FormData :=
  match findRow (approvalMatch idPeminjam) approvalRows with
  | Some (_, a) =>
      let form :=
        match a !! 1%nat with
        | Some v => setApprovalDate v form
        | None => form
        end in
      let form :=
        match a !! 5%nat with
        | Some v => setApprovalStatus v form
        | None => form
        end in
      match a !! 3%nat with
      | Some v => setApproverName v form
      | None => form
      end
  | None => form
  end.

(** The ordinal of the next row of a sheet whose column B was read:
    [row], 1 when the response is nil or has no values. *)
Definition nextRow (resp : option ValueRange) : Z :=
  match resp with
  | Some {| Values := Some rows |} =>
      if bool_decide (length rows = 0%nat) then 1
      else Z.of_nat (length rows) + 1
  | _ => 1
  end.

Definition formPengembalian (column : nat) (line : Z) : cellRef :=
  {| ref_sheet := "Form Pengembalian"; ref_col := column;
     ref_line := line |}.

(** The read of the approval sheet made once the loan row is found: a
    failure is logged and the form goes on without approval fields. *)
Definition fetchApproval (idPeminjam : string) (form : FormData)
  : M FormData :=
  respApproval ← valuesGet "Approval Peminjaman!A6:F";
  match respApproval with
  | GetErr =>
      log "Gagal mengambil data dari sheet Approval Peminjaman";;
      mret form
  | GetOk (Some {| Values := Some approvalRows |}) =>
      mret (joinApproval idPeminjam approvalRows form)
  | GetOk _ => mret form
  end.

(** The upload of the photo of the returned item, when there is one. *)
Definition uploadReturnPhoto (localPath : string) (form : FormData)
  : M FormData :=
  if String.eqb localPath "" then mret form
  else
    url ← uploadToDrive localPath;
    form ← match url with
           | Some url => mret (setFotoPath url form)
           | None =>
               log "Gagal upload foto pengembalian ke Drive";;
               mret (setFotoPath "Gagal upload" form)
           end;
    emit (RemoveFile localPath);;
    mret form.

(** The goroutine of [handlePengembalian] from the upload of the photo on,
    with the form filled from the loan row and the approval row. *)
Definition pengembalianFinish
    (idPeminjam kondisiAlat keteranganPengembalian localPath : string)
    (form : FormData) : M unit :=
  form ← uploadReturnPhoto localPath form;
  respPengembalian ← valuesGet "Form Pengembalian!B5:B";
  match respPengembalian with
  | GetErr => log "Gagal mengambil data dari Sheets pengembalian";; return_
  | GetOk respPengembalian =>
      let row := nextRow respPengembalian in
      let '(idPeminjamInt, okConv) := Atoi idPeminjam in
      let nomorUrut := if okConv then idPeminjamInt else row in
      doc ← generateSuratPengembalian form nomorUrut;
      match doc with
      | None => log "Gagal generate surat pengembalian";; return_
      | Some (pdf, _) =>
          let idPeminjamFormatted :=
            if okConv then pad04 idPeminjamInt else idPeminjam in
          today ← timeNowFormat "2006-01-02";
          ok ← valuesUpdate (formPengembalian colA (row + 4))
                 [idPeminjamFormatted; Nama form; today; kondisiAlat;
                  keteranganPengembalian; FotoPath form];
          if negb ok then
            log "Gagal update data pengembalian ke Sheets";; return_
          else
          salam ← getSalam;
          (if String.eqb (NoWA form) "" then log "Nomor WA peminjam kosong"
           else
             let normalizedNo := normalizePhoneNumber (NoWA form) in
             if tidakValid normalizedNo then
               log "Nomor WA peminjam tidak valid setelah normalisasi"
             else
               kirimDanCatat normalizedNo
                 {| msg_text := "pengembalian-peminjam";
                    msg_args := [salam; Nama form; NamaAlat form;
                                 Itoa (JumlahAlat form); TanggalPinjam form;
                                 TanggalKembali form; kondisiAlat; pdf] |}
                 "Gagal kirim WA" "WA pengembalian terkirim");;
          approverNo ← approverNumber;
          let approverName :=
            if String.eqb (ApproverName form) "" then "Bapak Sebastian"
            else ApproverName form in
          tglKembaliNow ← timeNowFormat "02 January 2006";
          let normalizedApproverNo := normalizePhoneNumber approverNo in
          if tidakValid normalizedApproverNo then
            log "Nomor WA approver tidak valid"
          else
            kirimDanCatat normalizedApproverNo
              {| msg_text := "pengembalian-approver";
                 msg_args := [approverName; Nama form; NamaAlat form;
                              Itoa (JumlahAlat form); TanggalPinjam form;
                              TanggalKembali form; tglKembaliNow;
                              kondisiAlat; keteranganPengembalian; pdf] |}
              "Gagal kirim WA ke approver"
              "WA pengembalian terkirim ke approver"
      end
  end.

(** The goroutine of [handlePengembalian]: the loan row is looked up, the
    approval row joined in, and the rest follows when the loan is found. *)
Definition pengembalianWorker
    (idPeminjam kondisiAlat keteranganPengembalian localPath : string)
  : M unit :=
  ok ← getServices;
  if negb ok then log "Service error";; return_ else
  resp ← valuesGet "Form Peminjam!A5:Z";
  match resp with
  | GetErr => log "Gagal mengambil data dari Sheets";; return_
  | GetOk None => panic
  | GetOk (Some vr) =>
      match findRow (tolerantMatch idPeminjam) (rowsOf vr) with
      | None =>
          log "ID Peminjam tidak ditemukan di sheet peminjaman";; return_
      | Some (_, r) =>
          match returnForm r kondisiAlat keteranganPengembalian with
          | None => panic
          | Some form =>
              form ← fetchApproval idPeminjam form;
              pengembalianFinish idPeminjam kondisiAlat
                keteranganPengembalian localPath form
          end
      end
  end.

Definition handlePengembalian (q : returnRequest) : M unit :=
  if String.eqb (rq_method q) "OPTIONS" then emit (Reply 200 "");; return_
  else if negb (String.eqb (rq_method q) "POST") then
    httpError "Method not allowed" 405;; return_
  else
  localPath ← match rq_foto q with
              | Some filename => saveFileLocally filename
              | None => mret ""
              end;
  write "Data pengembalian berhasil diterima dan sedang diproses";;
  pengembalianWorker (rq_idPeminjam q) (rq_kondisiAlat q)
    (rq_keteranganPengembalian q) localPath.

(** ** handlePinjam: the submission of a loan *)

Record pinjamRequest := {
  pq_nama : string;
  pq_kelas : string;
  pq_nis : string;
  pq_noWa : string;
  pq_namaAlat : string;
  pq_jumlahAlat : string;
  pq_tanggalPinjam : string;
  pq_tanggalKembali : string;
  pq_keterangan : string;
  pq_foto : option string
}.

(** The closure that reads column B before the goroutine starts; nil when
    the services or the read fail. *)
Definition readSheetData : M (option ValueRange) :=
  ok ← getServices;
  if negb ok then log "Service error";; mret None else
  resp ← valuesGet "Form Peminjam!B5:B";
  match resp with
  | GetErr => log "Gagal mengambil data dari Sheets";; mret None
  | GetOk resp => mret resp
  end.

(** [rowToUpdate := len(sheetData.Values) + 4]. *)
Definition rowToUpdate (sheetData : ValueRange) : Z :=
  Z.of_nat (length (rowsOf sheetData)) + 4.

(** The number of the borrower when the form has none: column F of the
    last row, read when [sheetData] is there and the row is beyond 5. *)
Definition fallbackNoWA (noWA : string) (sheetData : option ValueRange)
  : M string :=
  if negb (String.eqb noWA "") then mret noWA else
  match sheetData with
  | None => mret noWA
  | Some sd =>
      if negb (5 <? rowToUpdate sd) then mret noWA else
      respNoWA ← valuesGet ("Form Peminjam!F" +:+ Itoa (rowToUpdate sd));
      match respNoWA with
      | GetErr => mret noWA
      | GetOk None => panic
      | GetOk (Some vr) =>
          match rowsOf vr with
          | (v :: _) :: _ =>
              log "Fallback: NoWA diambil dari baris terakhir";;
              mret (TrimSpace v)
          | _ => mret noWA
          end
      end
  end.

(** The goroutine of [handlePinjam].  The variable [err] tested after the
    fallback is the one of [getServices], nil at that point: the branch
    taken is always the second one, which is the one embedded. *)
Definition pinjamWorker (form : FormData) (localPath : string)
    (sheetData : option ValueRange) : M unit :=
  ok ← getServices;
  if negb ok then log "Service error";; return_ else
  form ← (if String.eqb localPath "" then mret form
          else
            url ← uploadToDrive localPath;
            form ← match url with
                   | Some url => mret (setFotoPath url form)
                   | None =>
                       log "Gagal upload foto pengembalian ke Drive";;
                       mret form
                   end;
            emit (RemoveFile localPath);;
            mret form);
  let name := Nama form in
  noWA ← fallbackNoWA (NoWA form) sheetData;
  let form := setNoWA noWA form in
  let noWA := TrimSpace noWA in
  noWA ← (if String.eqb noWA "" then
            log "NoWA dari sheet kosong, menggunakan form.NoWA sebagai fallback";;
            mret (NoWA form)
          else mret noWA);
  (if String.eqb noWA "" then log "Nomor WA peminjam kosong" else mret ());;
  let form := setNoWA noWA form in
  form ← (if String.eqb (Nama form) "" then mret (setNama name form)
          else if negb (String.eqb (Nama form) name) then
            match sheetData with
            | Some sd =>
                (if 5 <? rowToUpdate sd then
                   ok ← valuesUpdate (formPeminjam colC (rowToUpdate sd))
                          [Nama form];
                   if negb ok then log "Gagal update nama di sheet"
                   else log "Nama di sheet berhasil diperbarui"
                 else log "Tidak memperbarui nama di baris 5 atau sebelumnya");;
                mret form
            | None =>
                log "Data sheet tidak tersedia, tidak dapat update nama";;
                mret form
            end
          else mret form);
  resp ← valuesGet "Form Peminjam!B5:B";
  match resp with
  | GetErr => log "Gagal mengambil data dari Sheets";; return_
  | GetOk resp =>
      let row := nextRow resp in
      doc ← generateSurat form row;
      match doc with
      | None => log "Gagal generate surat";; return_
      | Some (pdf, doc) =>
          today ← timeNowFormat "2006-01-02";
          w ← askWorld;
          ok ← valuesUpdate (formPeminjam colA (row + 4))
                 [pad04 row; today; Nama form; Kelas form; NIS form;
                  NoWA form; NamaAlat form; Itoa (JumlahAlat form);
                  TanggalPinjam form; TanggalKembali form; Keterangan form;
                  lamaPinjam w form; FotoPath form; pdf; doc; ""];
          if negb ok then log "Gagal update data ke Sheets";; return_ else
          salam ← getSalam;
          (if String.eqb (NoWA form) "" then log "Nomor WA peminjam kosong"
           else
             let normalizedNo := normalizePhoneNumber (NoWA form) in
             if tidakValid normalizedNo then
               log "Nomor WA peminjam tidak valid setelah normalisasi"
             else
               kirimDanCatat normalizedNo
                 {| msg_text := "pinjam-peminjam";
                    msg_args := [salam; Nama form; NamaAlat form;
                                 Itoa (JumlahAlat form); TanggalPinjam form;
                                 TanggalKembali form; pdf] |}
                 "Gagal kirim WA" "WA terkirim");;
          approverNo ← approverNumber;
          approvalLink ← osGetenv "APPROVAL_LINK";
          let approvalLink :=
            if String.eqb approvalLink "" then "https://example.com/approval"
            else approvalLink in
          kirimDanCatat approverNo
            {| msg_text := "pinjam-approver";
               msg_args := [salam; Nama form; Nama form; NamaAlat form;
                            Itoa (JumlahAlat form); TanggalPinjam form;
                            TanggalKembali form; pdf; approvalLink;
                            pad04 row] |}
            "Gagal kirim WA ke approver" "WA terkirim ke approver"
      end
  end.

Definition handlePinjam (q : pinjamRequest) : M unit :=
  let form :=
    {| Nama := pq_nama q; Kelas := pq_kelas q; NIS := pq_nis q;
       NoWA := pq_noWa q; NamaAlat := pq_namaAlat q;
       JumlahAlat := fst (Atoi (pq_jumlahAlat q));
       TanggalPinjam := pq_tanggalPinjam q;
       TanggalKembali := pq_tanggalKembali q;
       Keterangan := pq_keterangan q; KeteranganPinjam := "";
       FotoPath := ""; PeminjamanFotoPath := ""; ApprovalStatus := "";
       KondisiAlat := ""; KeteranganPengembalian := ""; ApprovalDate := "";
       ApproverName := "" |} in
  localPath ← match pq_foto q with
              | Some filename => saveFileLocally filename
              | None => mret ""
              end;
  write "Data berhasil diterima dan sedang diproses";;
  sheetData ← readSheetData;
  (if bool_decide (sheetData = None) then
     log "Tidak dapat mengambil data sheet, melanjutkan tanpa update nama"
   else mret ());;
  pinjamWorker form localPath sheetData.

(** ** What a trace shows *)

(** The sends issued to the gateway: the number and the message. *)
Fixpoint posts (tr : trace) : list (string * message) :=
  match tr with
  | [] => []
  | HttpPost number pesan _ :: rest => (number, pesan) :: posts rest
  | _ :: rest => posts rest
  end.

(** The writes asked of the ledger, accepted or not. *)
Fixpoint updates (tr : trace) : list (cellRef * list string * bool) :=
  match tr with
  | [] => []
  | SheetsUpdate at_ values ok :: rest => (at_, values, ok) :: updates rest
  | _ :: rest => updates rest
  end.

(** The requests made to the document service. *)
Fixpoint renders (tr : trace) : list renderRequest :=
  match tr with
  | [] => []
  | Render req _ :: rest => req :: renders rest
  | _ :: rest => renders rest
  end.

(** The lines logged. *)
Fixpoint logged (tr : trace) : list string :=
  match tr with
  | [] => []
  | Log line :: rest => line :: logged rest
  | _ :: rest => logged rest
  end.

(** The replies sent to the caller. *)
Fixpoint replies (tr : trace) : list (Z * string) :=
  match tr with
  | [] => []
  | Reply status body :: rest => (status, body) :: replies rest
  | _ :: rest => replies rest
  end.

(** The ledger as a map from cells to their content.  A write puts its
    values in the cells of one line, from the starting column on; a write
    the service refuses changes nothing. *)
Global Instance cellRef_countable : Countable cellRef.
Proof.
  refine (inj_countable'
            (λ c, (ref_sheet c, ref_col c, ref_line c))
            (λ t, {| ref_sheet := t.1.1; ref_col := t.1.2; ref_line := t.2 |})
            _).
  by intros [].
Defined.

Fixpoint writeCells (at_ : cellRef) (values : list string)
    (l : gmap cellRef string) : gmap cellRef string :=
  match values with
  | [] => l
  | v :: rest =>
      writeCells
        {| ref_sheet := ref_sheet at_; ref_col := S (ref_col at_);
           ref_line := ref_line at_ |} rest (<[at_ := v]> l)
  end.

Fixpoint ledgerAfter (us : list (cellRef * list string * bool))
    (l : gmap cellRef string) : gmap cellRef string :=
  match us with
  | [] => l
  | (at_, values, ok) :: rest =>
      ledgerAfter rest (if ok : bool then writeCells at_ values l else l)
  end.

(** The answer of a sheet that holds the rows given. *)
Definition rowsRead (rows : list row) : getResult :=
  GetOk (Some {| Values := Some rows |}).

(** ** A logic of footprints

    [spec w allowed m post]: run in the world [w] from any history, [m]
    only adds events that are [allowed], and the value it ends with, when
    it ends with one, satisfies [post]. *)
Definition spec {A} (w : World) (allowed : event → Prop) (m : M A)
    (post : A → Prop) : Prop :=
  ∀ tr, ∃ new,
    (m w tr).2 = tr ++ new ∧ Forall allowed new ∧
    match (m w tr).1 with
    | Done a => post a
    | Returned | Panicked => True
    end.

(** The events a run added to the history it started from. *)
Definition added (tr : trace) (out : trace) : trace := drop (length tr) out.

(** Kinds of events. *)
Definition isUpdate (e : event) : bool :=
  match e with SheetsUpdate _ _ _ => true | _ => false end.
Definition isPost (e : event) : bool :=
  match e with HttpPost _ _ _ => true | _ => false end.
Definition isRender (e : event) : bool :=
  match e with Render _ _ => true | _ => false end.

(** ** The three pipelines that allocate an ordinal

    Each of them measures its region by one read (the extent), takes the
    number of rows plus one as the ordinal of the new record, and writes
    the record at the line of that ordinal below the header. *)
Inductive pipeline :=
| Submit (form : FormData) (localPath : string)
    (sheetData : option ValueRange)
| Approve (q : approveRequest)
| Return (idPeminjam kondisiAlat keteranganPengembalian localPath : string).

Definition runPipeline (p : pipeline) : M unit :=
  match p with
  | Submit form localPath sheetData => pinjamWorker form localPath sheetData
  | Approve q => handleApprovalRequestNew q
  | Return idPeminjam kondisiAlat keteranganPengembalian localPath =>
      pengembalianWorker idPeminjam kondisiAlat keteranganPengembalian
        localPath
  end.

(** The range read to measure the region. *)
Definition extentRange (p : pipeline) : string :=
  match p with
  | Submit _ _ _ => "Form Peminjam!B5:B"
  | Approve _ => "Approval Peminjaman!A6:F"
  | Return _ _ _ _ => "Form Pengembalian!B5:B"
  end.

(** The ordinal the pipeline derives from the answer to that read. *)
Definition allocateNext (p : pipeline) (resp : option ValueRange) : Z :=
  match p with
  | Submit _ _ _ => nextRow resp
  | Approve _ => approvalRowNum resp - 5
  | Return _ _ _ _ => nextRow resp
  end.



(** An event that neither writes to the ledger nor notifies anybody. *)
Definition harmless (e : event) : Prop :=
  isUpdate e = false ∧ isPost e = false.

(** An event that, moreover, asks for no document. *)
Definition inert (e : event) : Prop :=
  isUpdate e = false ∧ isPost e = false ∧ isRender e = false.

(** A loan form as [handlePinjam] builds it, for the examples. *)
Definition contohForm : FormData :=
  {| Nama := "Budi"; Kelas := "XI RPL"; NIS := "1234";
     NoWA := "081234567890"; NamaAlat := "Kamera"; JumlahAlat := 3;
     TanggalPinjam := "2025-01-10"; TanggalKembali := "2025-01-15";
     Keterangan := "Praktik"; KeteranganPinjam := ""; FotoPath := "";
     PeminjamanFotoPath := ""; ApprovalStatus := ""; KondisiAlat := "";
     KeteranganPengembalian := ""; ApprovalDate := ""; ApproverName := "" |}.

(** The loan 0007 as the submission wrote it. *)
Definition pinjaman7 : row :=
  ["0007"; "2025-01-10"; "Budi"; "XI RPL"; "1234"; "081234567890"; "Kamera";
   "3"; "2025-01-10"; "2025-01-15"; "Praktik"; "5 hari";
   "https://drive.google.com/uc?id=fotopinjam";
   "https://drive.google.com/uc?id=pdfpinjam";
   "https://docs.google.com/document/d/docpinjam/edit"; ""].

(** Sheets that hold the loans, the approvals and the returns given. *)
Definition sheetsOf (loans approvals returns : list row)
    (range : string) : getResult :=
  if String.eqb range "Form Peminjam!A5:Z" then rowsRead loans
  else if String.eqb range "Form Peminjam!A5:A" then
    rowsRead (take 1 <$> loans)
  else if String.eqb range "Form Peminjam!B5:B" then
    rowsRead ((λ r, take 1 (drop 1 r)) <$> loans)
  else if String.eqb range "Approval Peminjaman!A6:F" then rowsRead approvals
  else if String.eqb range "Form Pengembalian!B5:B" then
    rowsRead ((λ r, take 1 (drop 1 r)) <$> returns)
  else rowsRead [].

(** Two approvals of the loan 0007: a refusal, then an agreement. *)
Definition duaPersetujuan : list row :=
  [["0001"; "2025-01-11"; "Budi"; "Pak Hasan"; "0007"; "Rejected"];
   ["0002"; "2025-01-12"; "Budi"; "Bu Rina"; "7"; "Approved"]].

(** One approval that refers to the loan as [0007]. *)
Definition satuPersetujuan : list row :=
  [["0001"; "2025-01-11"; "Budi"; "Pak Hasan"; "0007"; "Approved"]].

(** Sheets in which the loan 0007 and its approval are there, but the read
    of the return sheet fails. *)
Definition pengembalianDown (range : string) : getResult :=
  if String.eqb range "Form Pengembalian!B5:B" then GetErr
  else sheetsOf [pinjaman7] satuPersetujuan [] range.

(** Sheets of which every read fails. *)
Definition sheetsDown : string → getResult := λ _, GetErr.


(** Sheets that hold two rows wherever they are read. *)
Definition duaBaris : string → getResult :=
  λ _, rowsRead [["0001"; "2025-01-01"; "Ani"]; ["0002"; "2025-01-02"; "Budi"]].

(** A request for a document that carries the date, the status and the
    approver given at the placeholders of the approval. *)
Definition carriesApproval (date status approver : option string)
    (req : renderRequest) : Prop :=
  rr_replacements req !! "<<TGLPS>>" = date
  ∧ rr_replacements req !! "<<STS>>" = status
  ∧ rr_replacements req !! "<<YNG>>" = approver.

(** The most recent row that passes a test: rows are appended to a sheet,
    so it is the last one in the order of the sheet. *)
Definition lastRow (test : row → bool) (rows : list row) : option row :=
  last (filter (λ r, test r = true) rows).

(** What [handleApprove] answers and logs when its write number [k]
    (counting from 0: the status, the date, the approver) is refused. *)
Definition refusalReply (k : nat) : string :=
  match k with
  | O => "Gagal update status approval"
  | S O => "Gagal update tanggal persetujuan"
  | _ => "Gagal update nama approver"
  end.

Definition refusalLog (k : nat) : string :=
  match k with
  | O => "Sheets update error (status)"
  | S O => "Sheets update error (date)"
  | _ => "Sheets update error (approver)"
  end.

(** The three cells [handleApprove] writes for the loan at a line. *)
Definition approveCells (line : Z) : list cellRef :=
  [formPeminjam colQ line; formPeminjam colR line; formPeminjam colS line].

(** ** Worlds to run the handlers in *)

(** A clock stopped on the morning of 10 January 2025. *)
Definition calmClock (_ : trace) (layout : string) : string :=
  if String.eqb layout "2006-01-02" then "2025-01-10"
  else if String.eqb layout "02 January 2006" then "10 January 2025"
  else if String.eqb layout "02 January 2006 15:04" then "10 January 2025 08:00"
  else "2025-01-10 08:00:00".

(** A world in which the credentials are there, every service answers and
    accepts, and the sheets hold what [sheets] says. *)
Definition calmWorld (sheets : string → getResult) : World :=
  {| credentials_ok := λ _, true;
     sheets_get := λ _ range, sheets range;
     sheets_update := λ _ _ _, true;
     save_file := λ _ filename, "uploads/1_" +:+ filename;
     upload_to_drive := λ _ _, Some "https://drive.google.com/uc?id=foto";
     render := λ _ _, Some ("https://drive.google.com/uc?id=pdf",
                            "https://docs.google.com/document/d/doc/edit");
     wa_post := λ _ _ _, PostStatus 200;
     now_hour := λ _, 8;
     now_format := calmClock;
     days_between := λ _ _, 5;
     getenv := λ _, "" |}.

(** The same world, but the ledger refuses the writes to the cells for
    which [refused] holds. *)
Definition refusingWorld (sheets : string → getResult)
    (refused : cellRef → bool) : World :=
  {| credentials_ok := λ _, true;
     sheets_get := λ _ range, sheets range;
     sheets_update := λ _ at_ _, negb (refused at_);
     save_file := λ _ filename, "uploads/1_" +:+ filename;
     upload_to_drive := λ _ _, Some "https://drive.google.com/uc?id=foto";
     render := λ _ _, Some ("https://drive.google.com/uc?id=pdf",
                            "https://docs.google.com/document/d/doc/edit");
     wa_post := λ _ _ _, PostStatus 200;
     now_hour := λ _, 8;
     now_format := calmClock;
     days_between := λ _ _, 5;
     getenv := λ _, "" |}.

(** ** Predicates on strings used in the statements *)

Fixpoint hasByte (c : ascii) (s : string) : bool :=
  match s with
  | EmptyString => false
  | String a r => (Ascii.eqb a c || hasByte c r)%bool
  end.

Fixpoint allBytes (p : ascii → bool) (s : string) : bool :=
  match s with
  | EmptyString => true
  | String a r => (p a && allBytes p r)%bool
  end.

Definition isDigit (c : ascii) : bool := byteIn 48 57 c.

(** The four separators the normaliser removes. *)
Definition sepFree (s : string) : bool :=
  (negb (hasByte " " s) && negb (hasByte "-" s) && negb (hasByte "(" s)
   && negb (hasByte ")" s))%bool.

(** A canonical address: decimal digits, the first two being 62. *)
Definition canonical (s : string) : bool :=
  (HasPrefix s "62" && allBytes isDigit s)%bool.

(** A byte that no white-space rune starts with. *)
Definition startsNoSpace (c : ascii) : bool :=
  (negb (isAsciiSpace c) && negb (Ascii.eqb c "194")
   && negb (Ascii.eqb c "225") && negb (Ascii.eqb c "226")
   && negb (Ascii.eqb c "227"))%bool.

(** ** The routes of the server *)

(** [main] registers the four handlers; a request is one of the four. *)
Inductive request :=
| ReqPinjam (q : pinjamRequest)
| ReqApprove (q : approveRequest)
| ReqApprovalRequestNew (q : approveRequest)
| ReqPengembalian (q : returnRequest).

Definition serve (r : request) : M unit :=
  match r with
  | ReqPinjam q => handlePinjam q
  | ReqApprove q => handleApprove q
  | ReqApprovalRequestNew q => handleApprovalRequestNew q
  | ReqPengembalian q => handlePengembalian q
  end.

(** ** Monitors

    A monitor reads the events a run adds, one by one, and may refuse one.
    [wp w step m post s]: run in the world [w] from any history, [m] adds
    events that the monitor accepts from the state [s], and the way [m]
    ends together with the state the monitor reaches satisfy [post]. *)
Fixpoint monitor {S} (step : S → event → option S) (s : S) (new : trace)
  : option S :=
  match new with
  | [] => Some s
  | e :: rest =>
      match step s e with
      | Some s' => monitor step s' rest
      | None => None
      end
  end.

Definition wp {S A} (w : World) (step : S → event → option S) (m : M A)
    (post : result A → S → Prop) (s : S) : Prop :=
  ∀ tr, ∃ new s',
    (m w tr).2 = tr ++ new ∧ monitor step s new = Some s'
    ∧ post (m w tr).1 s'.

(** The monitor that accepts the events for which [ok] holds. *)
Definition only (ok : event → bool) (_ : unit) (e : event) : option unit :=
  if ok e then Some () else None.

(** A send goes to a number that begins with 62. *)
Definition sendsTo62 (e : event) : bool :=
  match e with
  | HttpPost number _ _ => HasPrefix number "62"
  | _ => true
  end.

(** The sheet a request writes to. *)
Definition regionSheet (r : request) : string :=
  match r with
  | ReqPinjam _ | ReqApprove _ => "Form Peminjam"
  | ReqApprovalRequestNew _ => "Approval Peminjaman"
  | ReqPengembalian _ => "Form Pengembalian"
  end.

(** The shape of the writes of a request: the submission writes rows of 16
    cells from column A, the documented approval and the return rows of 6
    cells from column A, the plain approval single cells of columns Q, R
    and S; all below the header of the sheet. *)
Definition inRegion (r : request) (at_ : cellRef) (values : list string)
  : bool :=
  (String.eqb (ref_sheet at_) (regionSheet r)
   && match r with
      | ReqPinjam _ =>
          (ref_col at_ =? colA)%nat && (length values =? 16)%nat
          && (5 <=? ref_line at_)
      | ReqApprove _ =>
          ((ref_col at_ =? colQ)%nat || (ref_col at_ =? colR)%nat
           || (ref_col at_ =? colS)%nat)
          && (length values =? 1)%nat && (5 <=? ref_line at_)
      | ReqApprovalRequestNew _ =>
          (ref_col at_ =? colA)%nat && (length values =? 6)%nat
          && (6 <=? ref_line at_)
      | ReqPengembalian _ =>
          (ref_col at_ =? colA)%nat && (length values =? 6)%nat
          && (5 <=? ref_line at_)
      end)%bool.

Definition writesInRegion (r : request) (e : event) : bool :=
  match e with
  | SheetsUpdate at_ values _ => inRegion r at_ values
  | _ => true
  end.

(** An event that touches no collaborator: a reply to the caller, a line
    of the log, the staging of the upload. *)
Definition isLocal (e : event) : bool :=
  match e with
  | Reply _ _ | Log _ | SaveFile _ => true
  | _ => false
  end.

(** Neither a write to the ledger nor a send. *)
Definition noWriteNoSend (e : event) : bool :=
  negb (isUpdate e) && negb (isPost e).

(** The monitor of the acknowledgment: before it, only the staging of the
    upload; then the reply 200 with the text given; after it, no other
    reply.  The state tells whether the acknowledgment has been sent. *)
Definition ackStep (ack : string) (acked : bool) (e : event) : option bool :=
  match acked, e with
  | false, SaveFile _ => Some false
  | false, Reply status body =>
      if (status =? 200) && String.eqb body ack then Some true else None
  | false, _ => None
  | true, Reply _ _ => None
  | true, _ => Some true
  end.

(** The monitor of the notifications: a send is accepted only once a write
    has been accepted by the ledger.  The state tells whether one has. *)
Definition notifyStep (written : bool) (e : event) : option bool :=
  match e with
  | SheetsUpdate _ _ ok => Some (written || ok)
  | HttpPost _ _ _ => if written then Some written else None
  | _ => Some written
  end.

(** The monitor that counts the writes, the documents and the sends. *)
Definition tallyStep (n : nat * nat * nat) (e : event)
  : option (nat * nat * nat) :=
  match e with
  | SheetsUpdate _ _ _ => Some (S n.1.1, n.1.2, n.2)
  | Render _ _ => Some (n.1.1, S n.1.2, n.2)
  | HttpPost _ _ _ => Some (n.1.1, n.1.2, S n.2)
  | _ => Some n
  end.

(** A piece of a handler that sends at most one message and neither writes
    nor asks for a document. *)
Definition oneSendMore (before after : nat * nat * nat) : Prop :=
  after.1.1 = before.1.1 ∧ after.1.2 = before.1.2
  ∧ (before.2 ≤ after.2 ≤ S before.2)%nat.

(** The monitor of the number of the loan document: a write is accepted
    only if its first cell is the number put at [<<NMR>>] in the document
    asked for before.  The state is that number. *)
Definition numberStep (nmr : option string) (e : event)
  : option (option string) :=
  match e with
  | Render req _ => Some (rr_replacements req !! "<<NMR>>")
  | SheetsUpdate _ values _ =>
      match nmr with
      | Some n => if bool_decide (head values = Some n) then Some nmr else None
      | None => None
      end
  | _ => Some nmr
  end.

(** The plain approval for the examples. *)
Definition setujui (id : string) : approveRequest :=
  {| ar_idPinjam := id; ar_approver := "Pak Hasan";
     ar_statusPersetujuan := "Approved" |}.

(** A return of the loan 7 with a photo. *)
Definition kembali7 : returnRequest :=
  {| rq_method := "POST"; rq_idPeminjam := "7"; rq_kondisiAlat := "Baik";
     rq_keteranganPengembalian := "Lengkap"; rq_foto := Some "kamera.jpg" |}.

(** A submission with a photo. *)
Definition pinjamKamera : pinjamRequest :=
  {| pq_nama := "Budi"; pq_kelas := "XI RPL"; pq_nis := "1234";
     pq_noWa := "0812-3456-7890"; pq_namaAlat := "Kamera";
     pq_jumlahAlat := "3"; pq_tanggalPinjam := "2025-01-10";
     pq_tanggalKembali := "2025-01-15"; pq_keterangan := "Praktik";
     pq_foto := Some "kamera.jpg" |}.

(** The world of [calmWorld] with its credentials gone. *)
Definition noCredentials (sheets : string → getResult) : World :=
  {| credentials_ok := λ _, false;
     sheets_get := λ _ range, sheets range;
     sheets_update := λ _ _ _, true;
     save_file := λ _ filename, "uploads/1_" +:+ filename;
     upload_to_drive := λ _ _, Some "https://drive.google.com/uc?id=foto";
     render := λ _ _, Some ("https://drive.google.com/uc?id=pdf",
                            "https://docs.google.com/document/d/doc/edit");
     wa_post := λ _ _ _, PostStatus 200;
     now_hour := λ _, 8;
     now_format := calmClock;
     days_between := λ _ _, 5;
     getenv := λ _, "" |}.

(** The world of [calmWorld] with a document service that fails. *)
Definition noDocuments (sheets : string → getResult) : World :=
  {| credentials_ok := λ _, true;
     sheets_get := λ _ range, sheets range;
     sheets_update := λ _ _ _, true;
     save_file := λ _ filename, "uploads/1_" +:+ filename;
     upload_to_drive := λ _ _, Some "https://drive.google.com/uc?id=foto";
     render := λ _ _, None;
     wa_post := λ _ _ _, PostStatus 200;
     now_hour := λ _, 8;
     now_format := calmClock;
     days_between := λ _ _, 5;
     getenv := λ _, "" |}.

(** ** The monitor of a failed read of the extent *)

(** What a pipeline does after the failed read: the submission and the
    return log the error, the approval answers 500 and logs it. *)
Definition abortTail (p : pipeline) : list event :=
  match p with
  | Submit _ _ _ => [Log "Gagal mengambil data dari Sheets"]
  | Approve _ =>
      [Reply 500 "Gagal mengambil data dari sheet approval";
       Log "Sheets get error"]
  | Return _ _ _ _ => [Log "Gagal mengambil data dari Sheets pengembalian"]
  end.

Definition failedExtentRead (p : pipeline) : event :=
  SheetsGet (extentRange p) GetErr.

Definition isFailedExtentRead (p : pipeline) (e : event) : bool :=
  match e with
  | SheetsGet range GetErr => String.eqb range (extentRange p)
  | _ => false
  end.

(** A write, a send or, but for the approval that renders its document
    before it measures the region, a request for a document. *)
Definition soils (p : pipeline) (e : event) : bool :=
  (isUpdate e || isPost e
   || isRender e && match p with Approve _ => false | _ => true end)%bool.

(** Two replies or two log lines that are the same. *)
Definition sameLocal (e e' : event) : bool :=
  match e, e' with
  | Log a, Log b => String.eqb a b
  | Reply s a, Reply s' b => ((s =? s') && String.eqb a b)%bool
  | _, _ => false
  end.

(** The states of the monitor: nothing written, sent or rendered yet;
    something has been; the read of the extent has failed and [rest] is
    still to come. *)
Inductive abortPhase :=
| Clean
| Dirty
| Tail (rest : list event).

(** The failed read is accepted only while nothing has been written, sent
    or rendered, and after it only the events of [abortTail], in order. *)
Definition abortStep (p : pipeline) (s : abortPhase) (e : event)
  : option abortPhase :=
  match s with
  | Clean =>
      if isFailedExtentRead p e then Some (Tail (abortTail p))
      else if soils p e then Some Dirty else Some Clean
  | Dirty => if isFailedExtentRead p e then None else Some Dirty
  | Tail [] => None
  | Tail (e' :: rest) => if sameLocal e e' then Some (Tail rest) else None
  end.

(** After the failed read the run must have gone through the whole of
    [abortTail] and ended by [return]. *)
Definition abortPost (r : result unit) (s : abortPhase) : Prop :=
  match s with
  | Tail [] => r = Returned
  | Tail (_ :: _) => False
  | _ => True
  end.

(** A message for the borrower: one of the three templates addressed to
    the person who took the loan. *)
Definition toBorrower (pesan : message) : bool :=
  (String.eqb (msg_text pesan) "pinjam-peminjam"
   || String.eqb (msg_text pesan) "approval-peminjam"
   || String.eqb (msg_text pesan) "pengembalian-peminjam")%bool.

(** A send to the borrower goes to a number the normaliser leaves alone. *)
Definition borrowerStable (e : event) : bool :=
  match e with
  | HttpPost number pesan _ =>
      (negb (toBorrower pesan)
       || String.eqb (normalizePhoneNumber number) number)%bool
  | _ => true
  end.

(** The monitor of the staged photo: once its upload has been tried, only
    lines of the log may come before its removal, and nothing is removed
    otherwise.  The state is the path that waits for its removal. *)
Definition stageStep (pending : option string) (e : event)
  : option (option string) :=
  match pending, e with
  | None, Upload localPath _ => Some (Some localPath)
  | None, RemoveFile _ => None
  | None, _ => Some None
  | Some _, Log _ => Some pending
  | Some p, RemoveFile q => if String.eqb p q then Some None else None
  | Some _, _ => None
  end.


(** ** Properties of the string functions *)

Section StringFacts.

Lemma removeAll_absent c s : hasByte c s = false → removeAll c s = s.
Proof.
  induction s as [|a r IH]; simpl; [done|].
  destruct (Ascii.eqb a c); simpl; [done|].
  intros H. by rewrite IH.
Qed.

Lemma hasByte_removeAll_same c s : hasByte c (removeAll c s) = false.
Proof.
  induction s as [|a r IH]; simpl; [done|].
  destruct (Ascii.eqb a c) eqn:E; simpl; [done|]. by rewrite E.
Qed.

Lemma hasByte_removeAll_other c d s :
  hasByte c s = false → hasByte c (removeAll d s) = false.
Proof.
  induction s as [|a r IH]; simpl; [done|].
  intros [Ha Hr]%orb_false_iff.
  destruct (Ascii.eqb a d); simpl; [auto|].
  rewrite Ha. auto.
Qed.

Lemma hasByte_tail1 c s : hasByte c s = false → hasByte c (tail1 s) = false.
Proof. destruct s; simpl; [done|]. by intros [_ ?]%orb_false_iff. Qed.

Lemma hasByte_trimRightSpace c s :
  hasByte c s = false → hasByte c (trimRightSpace s) = false.
Proof.
  induction s as [|a r IH]; [done|].
  intros [Ha Hr]%orb_false_iff.
  change (trimRightSpace (String a r))
    with (if allSpace (String a r) then EmptyString
          else String a (trimRightSpace r)).
  destruct (allSpace (String a r)); simpl; [done|].
  rewrite Ha. auto.
Qed.

Lemma trimLeftSpace_head c r :
  startsNoSpace c = true → trimLeftSpace (String c r) = String c r.
Proof.
  unfold startsNoSpace. intros H.
  repeat (apply andb_prop in H as [H ?]).
  apply negb_true_iff in H.
  simpl. rewrite H.
  destruct r as [|d [|e r]]; [done| |].
  - unfold isSpace2. by destruct (Ascii.eqb c "194").
  - unfold isSpace2, isSpace3.
    destruct (Ascii.eqb c "194"), (Ascii.eqb c "225"),
      (Ascii.eqb c "226"), (Ascii.eqb c "227"); done.
Qed.

Lemma trimRightSpace_head c r :
  startsNoSpace c = true →
  trimRightSpace (String c r) = String c (trimRightSpace r).
Proof.
  intros H.
  change (trimRightSpace (String c r))
    with (if allSpace (String c r) then EmptyString
          else String c (trimRightSpace r)).
  unfold allSpace. by rewrite trimLeftSpace_head.
Qed.

Lemma isDigit_startsNoSpace c : isDigit c = true → startsNoSpace c = true.
Proof. by destruct c as [[] [] [] [] [] [] [] []]. Qed.

Lemma trimRightSpace_digits s :
  allBytes isDigit s = true → trimRightSpace s = s.
Proof.
  induction s as [|a r IH]; [done|].
  intros [Ha Hr]%andb_prop.
  rewrite trimRightSpace_head by by apply isDigit_startsNoSpace.
  by rewrite IH.
Qed.

Lemma hasByte_digits c s :
  isDigit c = false → allBytes isDigit s = true → hasByte c s = false.
Proof.
  intros Hc. induction s as [|a r IH]; simpl; [done|].
  intros [Ha Hr]%andb_prop. rewrite IH by done.
  destruct (Ascii.eqb_spec a c) as [->|]; [congruence|done].
Qed.

Lemma sepFree_digits s : allBytes isDigit s = true → sepFree s = true.
Proof.
  intros H. unfold sepFree.
  by rewrite !hasByte_digits.
Qed.

End StringFacts.

(** ** The phone normaliser *)

Section Normalizer.

Lemma sepFree_stripped s :
  sepFree (removeAll ")" (removeAll "(" (removeAll "-" (removeAll " " s))))
  = true.
Proof.
  unfold sepFree.
  rewrite hasByte_removeAll_same.
  rewrite (hasByte_removeAll_other "(" ")") by apply hasByte_removeAll_same.
  rewrite (hasByte_removeAll_other "-" ")"), (hasByte_removeAll_other " " ")");
    [done| |];
    repeat first [ apply hasByte_removeAll_same
                 | apply hasByte_removeAll_other ].
Qed.

Lemma sepFree_cons a r : sepFree (String a r) = true → sepFree r = true.
Proof.
  unfold sepFree. simpl. rewrite !negb_orb.
  intros H. repeat (apply andb_prop in H as [H ?]).
  repeat (apply andb_prop in H as [? H]).
  repeat match goal with
         | K : (_ && _)%bool = true |- _ => apply andb_prop in K as [_ K]
         end.
  by repeat (apply andb_true_intro; split).
Qed.

Lemma removeAll_sepFree s :
  sepFree s = true →
  removeAll ")" (removeAll "(" (removeAll "-" (removeAll " " s))) = s.
Proof.
  unfold sepFree. intros H.
  repeat (apply andb_prop in H as [H ?%negb_true_iff]).
  apply negb_true_iff in H.
  by rewrite (removeAll_absent " " s), (removeAll_absent "-" s),
    (removeAll_absent "(" s), (removeAll_absent ")" s).
Qed.

Lemma sepFree_trimRightSpace s :
  sepFree s = true → sepFree (trimRightSpace s) = true.
Proof.
  unfold sepFree. intros H.
  repeat (apply andb_prop in H as [H ?%negb_true_iff]).
  apply negb_true_iff in H.
  by rewrite !hasByte_trimRightSpace.
Qed.

Lemma sepFree_62 t :
  sepFree t = true → sepFree (String "6" (String "2" t)) = true.
Proof. done. Qed.

(** The normaliser returns the empty string or 62 followed by what is left
    of the input, in which no separator remains. *)
Lemma normalizePhoneNumber_cases x :
  normalizePhoneNumber x = ""
  ∨ ∃ t, normalizePhoneNumber x = String "6" (String "2" t)
         ∧ sepFree t = true.
Proof.
  unfold normalizePhoneNumber.
  pose proof (sepFree_stripped (TrimSpace x)) as Hfree.
  destruct (removeAll ")" _) as [|a r]; [by left|].
  apply sepFree_cons in Hfree as Hr.
  cbn [HasPrefix tail1].
  destruct (Ascii.eqb_spec a "+");
    [right; exists r; split; [reflexivity|assumption]|].
  destruct (Ascii.eqb_spec a "0");
    [right; exists r; split; [reflexivity|assumption]|].
  destruct (Ascii.eqb_spec a "6") as [->|]; [|by left].
  destruct r as [|b r]; [by left|].
  destruct (Ascii.eqb_spec b "2") as [->|]; [|by left].
  right. exists r. split; [done|by apply sepFree_cons in Hr].
Qed.

(** On a string that starts with 62 and holds no separator, the normaliser
    only removes the trailing white space. *)
Lemma normalizePhoneNumber_62 t :
  sepFree t = true →
  normalizePhoneNumber (String "6" (String "2" t))
  = String "6" (String "2" (trimRightSpace t)).
Proof.
  intros Ht. unfold normalizePhoneNumber, TrimSpace.
  rewrite trimLeftSpace_head by done.
  rewrite !trimRightSpace_head by done.
  rewrite removeAll_sepFree.
  - done.
  - by apply sepFree_62, sepFree_trimRightSpace.
Qed.

(** Normalising twice is normalising once and trimming the trailing white
    space that the removal of separators has uncovered. *)
Lemma normalizePhoneNumber_twice x :
  normalizePhoneNumber (normalizePhoneNumber x)
  = trimRightSpace (normalizePhoneNumber x).
Proof.
  destruct (normalizePhoneNumber_cases x) as [->|(t & -> & Ht)]; [done|].
  rewrite normalizePhoneNumber_62 by done.
  by rewrite !trimRightSpace_head.
Qed.

End Normalizer.

(** C4.  The input [+6281234567890]: the leading [+] is replaced by 62 in
    front of a number that already carries the country prefix, and the
    result is [626281234567890], not the canonical [6281234567890]. *)
Theorem normalizePhoneNumber_plus_doubles_prefix :
  normalizePhoneNumber "+6281234567890" = "626281234567890"
  ∧ normalizePhoneNumber "+6281234567890" ≠ "6281234567890".
Proof. split; [reflexivity|discriminate]. Qed.

(** C5, as stated, fails: for the input made of [0], a tab and [-], one
    pass gives 62 followed by the tab and a second pass removes the tab. *)
Lemma normalizePhoneNumber_not_idempotent :
  normalizePhoneNumber
    (normalizePhoneNumber (String "0" (String "009" "-")))
  ≠ normalizePhoneNumber (String "0" (String "009" "-")).
Proof. discriminate. Qed.

(** C5, amended.  The normaliser is idempotent on every input whose
    normalisation does not end in white space, and a canonical address (62
    followed by decimal digits) is returned unchanged. *)
Theorem normalizePhoneNumber_idempotent_amended (x y : string) :
  trimRightSpace (normalizePhoneNumber x) = normalizePhoneNumber x →
  canonical y = true →
  normalizePhoneNumber (normalizePhoneNumber x) = normalizePhoneNumber x
  ∧ normalizePhoneNumber y = y.
Proof.
  intros Hx [Hp Hd]%andb_prop. split.
  - by rewrite normalizePhoneNumber_twice.
  - destruct y as [|a [|b t]]; cbn [HasPrefix] in Hp;
      [done|by rewrite andb_false_r in Hp|].
    destruct (Ascii.eqb_spec a "6") as [->|]; [|done].
    destruct (Ascii.eqb_spec b "2") as [->|]; [|done].
    simpl in Hd.
    rewrite normalizePhoneNumber_62 by by apply sepFree_digits.
    by rewrite trimRightSpace_digits.
Qed.

Lemma normalizePhoneNumber_idempotent_witness :
  normalizePhoneNumber (normalizePhoneNumber "  0812-3456 (789)0")
  = normalizePhoneNumber "  0812-3456 (789)0"
  ∧ normalizePhoneNumber "6281234567890" = "6281234567890".
Proof.
  apply (normalizePhoneNumber_idempotent_amended
           "  0812-3456 (789)0" "6281234567890"); reflexivity.
Defined.

(** C7, as stated, fails: letters after a leading 0 stay in the output. *)
Lemma normalizePhoneNumber_not_digits :
  normalizePhoneNumber "0abc" = "62abc"
  ∧ allBytes isDigit (normalizePhoneNumber "0abc") = false.
Proof. split; reflexivity. Qed.

(** C7, amended.  The output is the empty string, or a string that begins
    with 62 and holds none of the four separators; its other bytes are
    those of the input and need not be digits. *)
Theorem normalizePhoneNumber_output_shape (x : string) :
  normalizePhoneNumber x = ""
  ∨ (HasPrefix (normalizePhoneNumber x) "62" = true
     ∧ sepFree (normalizePhoneNumber x) = true).
Proof.
  destruct (normalizePhoneNumber_cases x) as [->|(t & -> & Ht)];
    [by left|right].
  split; [done|by apply sepFree_62].
Qed.

(** ** The message sender *)

(** C10.  [kirimPesanWaBangkit] normalises the number itself.  When the
    normalised number does not begin with 62 it returns an error and the
    history is unchanged: no request leaves.  Otherwise exactly one
    request is made, to the normalised number.  So every request it issues
    goes to a number that begins with 62. *)
Theorem kirimPesanWaBangkit_only_to_62 (w : World) (tr : trace)
    (no : string) (pesan : message) :
  let number := normalizePhoneNumber no in
  let out := kirimPesanWaBangkit no pesan w tr in
  (if HasPrefix number "62"
   then out.2 = tr ++ [HttpPost number pesan (wa_post w tr number pesan)]
   else out = (Done (Some
            "Format nomor WA tidak valid (harus 62...), silakan isi ulang"),
               tr))
  ∧ Forall (λ p, HasPrefix p.1 "62" = true)
      (posts (drop (length tr) out.2)).
Proof.
  cbv zeta. unfold kirimPesanWaBangkit.
  destruct (HasPrefix (normalizePhoneNumber no) "62") eqn:E; cbn [negb].
  - unfold mbind, M_bind, post, mret, M_ret.
    destruct (wa_post w tr (normalizePhoneNumber no) pesan) as [|code];
      [|destruct (300 <=? code)]; cbn [snd];
      (split; [done|]); rewrite drop_app_length; cbn [posts];
      (constructor; [exact E|constructor]).
  - split; [done|]. unfold mret, M_ret. cbn [snd].
    rewrite drop_all. constructor.
Qed.

(** ** Rules of the logic of footprints *)

Section Footprint.

Context (w : World) (allowed : event → Prop).

Lemma spec_ret {A} (a : A) (post : A → Prop) :
  post a → spec w allowed (mret a) post.
Proof. intros H tr. exists []. by rewrite app_nil_r. Qed.

Lemma spec_bind {A B} (m : M A) (f : A → M B) (mid : A → Prop)
    (post : B → Prop) :
  spec w allowed m mid →
  (∀ a, mid a → spec w allowed (f a) post) →
  spec w allowed (m ≫= f) post.
Proof.
  intros Hm Hf tr. destruct (Hm tr) as (n1 & E1 & F1 & P1).
  unfold mbind, M_bind.
  destruct (m w tr) as [[a| |] tr1]; simpl in *; subst;
    [|by exists n1..].
  destruct (Hf a P1 (tr ++ n1)) as (n2 & E2 & F2 & P2).
  exists (n1 ++ n2). rewrite E2, app_assoc.
  split; [done|]. split; [by apply Forall_app|done].
Qed.

Lemma spec_weaken {A} (m : M A) (post post' : A → Prop) :
  spec w allowed m post → (∀ a, post a → post' a) →
  spec w allowed m post'.
Proof.
  intros Hm Hi tr. destruct (Hm tr) as (new & E & F & P).
  exists new. split; [done|]. split; [done|].
  destruct (m w tr).1; auto.
Qed.

Lemma spec_emit (e : event) (post : unit → Prop) :
  allowed e → post () → spec w allowed (emit e) post.
Proof. intros He Hp tr. exists [e]. simpl. by repeat constructor. Qed.

Lemma spec_return {A} (post : A → Prop) : spec w allowed return_ post.
Proof. intros tr. exists []. by rewrite app_nil_r. Qed.

Lemma spec_panic {A} (post : A → Prop) : spec w allowed panic post.
Proof. intros tr. exists []. by rewrite app_nil_r. Qed.

Lemma spec_getServices : spec w allowed getServices (λ _, True).
Proof. intros tr. exists []. by rewrite app_nil_r. Qed.

Lemma spec_askWorld : spec w allowed askWorld (λ w', w' = w).
Proof. intros tr. exists []. by rewrite app_nil_r. Qed.

Lemma spec_timeNowFormat layout :
  spec w allowed (timeNowFormat layout) (λ _, True).
Proof. intros tr. exists []. by rewrite app_nil_r. Qed.

Lemma spec_osGetenv key : spec w allowed (osGetenv key) (λ _, True).
Proof. intros tr. exists []. by rewrite app_nil_r. Qed.

Lemma spec_getSalam : spec w allowed getSalam (λ _, True).
Proof. intros tr. exists []. by rewrite app_nil_r. Qed.

Lemma spec_valuesGet range :
  (∀ res, allowed (SheetsGet range res)) →
  spec w allowed (valuesGet range) (λ res, ∃ h, res = sheets_get w h range).
Proof.
  intros H tr. eexists [_]. simpl. split; [done|].
  split; [by repeat constructor|by exists tr].
Qed.

Lemma spec_valuesUpdate at_ values :
  (∀ ok, allowed (SheetsUpdate at_ values ok)) →
  spec w allowed (valuesUpdate at_ values) (λ _, True).
Proof. intros H tr. eexists [_]. simpl. by repeat constructor. Qed.

Lemma spec_uploadToDrive localPath :
  (∀ ok, allowed (Upload localPath ok)) →
  spec w allowed (uploadToDrive localPath) (λ _, True).
Proof. intros H tr. eexists [_]. simpl. by repeat constructor. Qed.

Lemma spec_saveFileLocally filename :
  allowed (SaveFile filename) →
  spec w allowed (saveFileLocally filename) (λ _, True).
Proof. intros H tr. eexists [_]. simpl. by repeat constructor. Qed.

Lemma spec_renderDocument req :
  (∀ ok, allowed (Render req ok)) →
  spec w allowed (renderDocument req) (λ _, True).
Proof. intros H tr. eexists [_]. simpl. by repeat constructor. Qed.

Lemma spec_kirimPesanWaBangkit no pesan :
  (HasPrefix (normalizePhoneNumber no) "62" = true →
   ∀ res, allowed (HttpPost (normalizePhoneNumber no) pesan res)) →
  spec w allowed (kirimPesanWaBangkit no pesan) (λ _, True).
Proof.
  intros H tr. unfold kirimPesanWaBangkit.
  destruct (HasPrefix (normalizePhoneNumber no) "62") eqn:E; cbn [negb].
  - exists [HttpPost (normalizePhoneNumber no) pesan
              (wa_post w tr (normalizePhoneNumber no) pesan)].
    unfold mbind, M_bind, post, mret, M_ret.
    destruct (wa_post w tr (normalizePhoneNumber no) pesan) as [|code];
      [|destruct (300 <=? code)]; cbn [fst snd];
      (split; [done|]); (split; [|done]); repeat constructor; by apply H.
  - exists []. by rewrite app_nil_r.
Qed.

End Footprint.

(** ** Walking a handler with the rules *)

Ltac spec_leaf :=
  first
    [ apply spec_getServices | apply spec_askWorld
    | apply spec_timeNowFormat | apply spec_osGetenv | apply spec_getSalam
    | apply spec_valuesGet | apply spec_valuesUpdate
    | apply spec_uploadToDrive | apply spec_saveFileLocally
    | apply spec_renderDocument | apply spec_kirimPesanWaBangkit ].

(** [spec_walk tac] follows the structure of the program; [tac] is run on
    the hypotheses each time a value is bound or a case is split, and may
    close the branches that cannot be reached. *)
Ltac spec_walk tac :=
  cbv beta iota zeta;
  lazymatch goal with
  | |- spec _ _ ?m ?post =>
      lazymatch m with
      | mbind _ ?m1 =>
          lazymatch m1 with
          | mbind _ _ =>
              eapply (spec_bind _ _ _ _ (λ _, True));
              [spec_walk tac | intros ? _; spec_walk tac]
          | match _ with _ => _ end =>
              eapply (spec_bind _ _ _ _ (λ _, True));
              [spec_walk tac | intros ? _; spec_walk tac]
          | mret _ =>
              eapply (spec_bind _ _ _ _ (λ _, True));
              [by apply spec_ret | intros ? _; spec_walk tac]
          | emit _ =>
              eapply (spec_bind _ _ _ _ (λ _, True));
              [apply spec_emit; [|exact I]
              | intros ? _; spec_walk tac]
          | _ =>
              eapply spec_bind;
              [spec_leaf | intros ? ?; tac; spec_walk tac]
          end
      | mret _ => apply spec_ret
      | return_ => apply spec_return
      | panic => apply spec_panic
      | emit _ => apply spec_emit
      | match ?x with _ => _ end =>
          destruct x eqn:?; tac; spec_walk tac
      | _ => try (eapply spec_weaken; [spec_leaf|])
      end
  | |- _ => idtac
  end.

Ltac spec_unfold :=
  unfold kirimDanCatat, approverNumber, generateSurat,
    generateSuratApproval, generateSuratPengembalian, fetchApproval,
    fallbackNoWA, readSheetData, uploadReturnPhoto, httpError, write, log.

(** ** When the read of the extent fails *)

Section ExtentReadFails.

Context (w : World).

(** What a failed read says about a value bound to its answer. *)
Ltac failed_read H :=
  repeat match goal with
         | K : ∃ h, _ = sheets_get _ h _ |- _ => destruct K as [? K]
         | K : _ = sheets_get _ _ _ |- _ =>
             first [ rewrite H in K; subst | clear K ]
         | K : GetOk _ = GetErr |- _ => discriminate K
         | K : GetErr = GetOk _ |- _ => discriminate K
         end.

Lemma pengembalianFinish_read_fails id kondisi ket localPath form :
  (∀ h, sheets_get w h "Form Pengembalian!B5:B" = GetErr) →
  spec w inert (pengembalianFinish id kondisi ket localPath form)
    (λ _, False).
Proof.
  intros H. unfold pengembalianFinish. spec_unfold.
  spec_walk ltac:(failed_read H).
  all: try done.
Qed.

Lemma pengembalianWorker_read_fails id kondisi ket localPath :
  (∀ h, sheets_get w h "Form Pengembalian!B5:B" = GetErr) →
  spec w inert (pengembalianWorker id kondisi ket localPath) (λ _, False).
Proof.
  intros H. unfold pengembalianWorker. spec_unfold.
  spec_walk ltac:(idtac).
  all: try done.
  by apply pengembalianFinish_read_fails.
Qed.

Lemma pinjamWorker_read_fails form localPath sheetData :
  (∀ h, sheets_get w h "Form Peminjam!B5:B" = GetErr) →
  spec w inert (pinjamWorker form localPath sheetData) (λ _, False).
Proof.
  intros H. unfold pinjamWorker. spec_unfold.
  spec_walk ltac:(failed_read H;
    try match goal with
        | K : negb (String.eqb _ _) = true |- _ =>
            cbn in K; rewrite String.eqb_refl in K; discriminate K
        end).
  all: try done.
Qed.

Lemma handleApprovalRequestNew_read_fails q :
  (∀ h, sheets_get w h "Approval Peminjaman!A6:F" = GetErr) →
  spec w harmless (handleApprovalRequestNew q) (λ _, False).
Proof.
  intros H. unfold handleApprovalRequestNew. spec_unfold.
  spec_walk ltac:(failed_read H).
  all: try done.
Qed.

End ExtentReadFails.

Lemma updates_none new :
  Forall (λ e, isUpdate e = false) new → updates new = [].
Proof. induction 1 as [|[] ? ? ?]; simpl; done. Qed.

Lemma posts_none new : Forall (λ e, isPost e = false) new → posts new = [].
Proof. induction 1 as [|[] ? ? ?]; simpl; done. Qed.

Lemma renders_none new :
  Forall (λ e, isRender e = false) new → renders new = [].
Proof. induction 1 as [|[] ? ? ?]; simpl; done. Qed.

Lemma added_app tr new : added tr (tr ++ new) = new.
Proof. unfold added. by rewrite drop_app_length. Qed.

(** C6, as stated, fails: when the read of column B fails, the goroutine
    of the submission logs the error and returns; nothing is written, with
    ordinal 1 or any other. *)
Lemma submit_read_failure_returns :
  run (runPipeline (Submit contohForm "" None)) (calmWorld sheetsDown)
  = (Returned,
     [SheetsGet "Form Peminjam!B5:B" GetErr;
      Log "Gagal mengambil data dari Sheets"]).
Proof. reflexivity. Qed.

(** While the read of the extent fails at every history, a pipeline never
    runs to its end, writes nothing to the ledger and notifies nobody,
    whether it reaches that read or stops before it; the submission and
    the return ask for no document either. *)
Lemma extent_read_failure_quiet (w : World) (p : pipeline) (tr : trace) :
  (∀ h, sheets_get w h (extentRange p) = GetErr) →
  let out := runPipeline p w tr in
  out.1 ≠ Done ()
  ∧ updates (added tr out.2) = []
  ∧ posts (added tr out.2) = []
  ∧ match p with
    | Approve _ => True
    | _ => renders (added tr out.2) = []
    end.
Proof.
  intros H out. subst out.
  destruct p as [form localPath sheetData|q|id kondisi ket localPath];
    cbn [runPipeline extentRange] in *.
  - destruct (pinjamWorker_read_fails w form localPath sheetData H tr)
      as (new & -> & F & P).
    rewrite added_app. split; [by destruct (_.1) as [[]| |]|].
    split; [|split]; [apply updates_none|apply posts_none|apply renders_none];
      eapply Forall_impl; [done| |done| |done|]; by intros ? (?&?&?).
  - destruct (handleApprovalRequestNew_read_fails w q H tr)
      as (new & -> & F & P).
    rewrite added_app. split; [by destruct (_.1) as [[]| |]|].
    split; [|split]; [apply updates_none|apply posts_none|done];
      eapply Forall_impl; [done| |done|]; by intros ? (?&?).
  - destruct (pengembalianWorker_read_fails w id kondisi ket localPath H tr)
      as (new & -> & F & P).
    rewrite added_app. split; [by destruct (_.1) as [[]| |]|].
    split; [|split]; [apply updates_none|apply posts_none|apply renders_none];
      eapply Forall_impl; [done| |done| |done|]; by intros ? (?&?&?).
Qed.


(** ** The next ordinal *)



Lemma updates_Forall (P : cellRef * list string * bool → Prop) new :
  Forall (λ e, match e with
               | SheetsUpdate at_ values ok => P (at_, values, ok)
               | _ => True
               end) new →
  Forall P (updates new).
Proof. induction 1 as [|[] ? ? ?]; simpl; auto. Qed.

Section ExtentRead.

Context (w : World) (rows : list row).






End ExtentRead.



(** ** The return of a loan that is not there *)

(** C8.  When the services are there and the loan sheet is read but no row
    matches the identifier, even with the leading zeros set aside, the
    goroutine of the return logs that the loan was not found and returns:
    after the read it writes nothing to the ledger, asks for no document
    and sends no notification. *)
Theorem pengembalian_not_found (w : World) (tr : trace)
    (idPeminjam kondisiAlat keteranganPengembalian localPath : string)
    (vr : ValueRange) :
  credentials_ok w tr = true →
  sheets_get w tr "Form Peminjam!A5:Z" = GetOk (Some vr) →
  findRow (tolerantMatch idPeminjam) (rowsOf vr) = None →
  let out :=
    pengembalianWorker idPeminjam kondisiAlat keteranganPengembalian
      localPath w tr in
  out = (Returned,
         tr ++ [SheetsGet "Form Peminjam!A5:Z" (GetOk (Some vr));
                Log "ID Peminjam tidak ditemukan di sheet peminjaman"])
  ∧ updates (added tr out.2) = []
  ∧ posts (added tr out.2) = []
  ∧ renders (added tr out.2) = [].
Proof.
  intros Hc Hg Hf out.
  assert (out = (Returned,
         tr ++ [SheetsGet "Form Peminjam!A5:Z" (GetOk (Some vr));
                Log "ID Peminjam tidak ditemukan di sheet peminjaman"]))
    as ->.
  { subst out.
    unfold pengembalianWorker, mbind, M_bind, getServices, valuesGet, log,
      emit, return_.
    rewrite Hc. cbn [negb]. rewrite Hg, Hf. by rewrite <- app_assoc. }
  cbn [snd]. by rewrite added_app.
Qed.

Lemma pengembalian_not_found_witness :
  let out :=
    pengembalianWorker "9" "Baik" "" ""
      (calmWorld (sheetsOf [pinjaman7] [] [])) [] in
  out = (Returned,
         [SheetsGet "Form Peminjam!A5:Z" (rowsRead [pinjaman7]);
          Log "ID Peminjam tidak ditemukan di sheet peminjaman"])
  ∧ updates (added [] out.2) = []
  ∧ posts (added [] out.2) = []
  ∧ renders (added [] out.2) = [].
Proof.
  apply (pengembalian_not_found (calmWorld (sheetsOf [pinjaman7] [] [])) []
           "9" "Baik" "" "" {| Values := Some [pinjaman7] |});
    reflexivity.
Defined.

(** ** Matching the identifier of a loan *)

(** The first row that passes the test: it is in the list, it passes, and
    no row before it does. *)
Lemma findRowFrom_Some test i rows j r :
  findRowFrom test i rows = Some (j, r) →
  i ≤ j
  ∧ rows !! Z.to_nat (j - i) = Some r
  ∧ test r = true
  ∧ ∀ k b, (k < Z.to_nat (j - i))%nat → rows !! k = Some b → test b = false.
Proof.
  revert i. induction rows as [|x rows IH]; intros i; simpl; [done|].
  destruct (test x) eqn:E.
  - intros [= <- <-]. rewrite Z.sub_diag. simpl.
    repeat split; [lia|done|]. intros; lia.
  - intros (Hle & Hl & Ht & Hb)%IH.
    replace (Z.to_nat (j - i)) with (S (Z.to_nat (j - (i + 1)))) by lia.
    repeat split; [lia|done|done|].
    intros [|k] b Hk; simpl; [by intros [= <-]|].
    apply Hb. lia.
Qed.

(** Two identifiers that differ only by leading zeros select the same row
    in the two handlers that strip the zeros. *)
Lemma tolerantMatch_zeros id id' rows :
  trimLeftByte "0" id = trimLeftByte "0" id' →
  findRow (tolerantMatch id) rows = findRow (tolerantMatch id') rows.
Proof.
  intros H. unfold findRow. generalize 0.
  induction rows as [|r rows IH]; intros i; simpl; [done|].
  rewrite IH. unfold tolerantMatch. by rewrite H.
Qed.

(** C1.  The loan sheet holds the identifier [0007].  The two handlers that
    strip the leading zeros find the row for [0007] and for [7] alike, but
    [handleApprove] compares the texts as they are: it marks the row for
    [0007] and answers that the loan is not found for [7], writing
    nothing. *)
Theorem handleApprove_misses_unpadded_id :
  let w := calmWorld (sheetsOf [pinjaman7] [] []) in
  let approve id :=
    run (handleApprove {| ar_idPinjam := id; ar_approver := "Pak Hasan";
                          ar_statusPersetujuan := "Approved" |}) w in
  findRow (tolerantMatch "0007") [pinjaman7] = Some (0, pinjaman7)
  ∧ findRow (tolerantMatch "7") [pinjaman7] = Some (0, pinjaman7)
  ∧ approveRowIndex "0007" [["0007"]] = 5
  ∧ approveRowIndex "7" [["0007"]] = -1
  ∧ fst <$> updates (approve "0007").2
    = [(formPeminjam colQ 5, ["Approved"]);
       (formPeminjam colR 5, ["2025-01-10 08:00:00"]);
       (formPeminjam colS 5, ["Pak Hasan"])]
  ∧ updates (approve "7").2 = []
  ∧ replies (approve "7").2 = [(400, "ID Pinjam tidak ditemukan")].
Proof. repeat split; reflexivity. Qed.

(** ** handleApprove and the cells it writes *)

Lemma writeCells_one at_ v (l : gmap cellRef string) :
  writeCells at_ [v] l = <[at_ := v]> l.
Proof. done. Qed.

(** C9, as stated, fails: when the ledger refuses the write of the date,
    the handler has written the status only and stops with an error; the
    cell of the approver is never written. *)
Lemma handleApprove_stops_at_refused_write :
  let w := refusingWorld (sheetsOf [pinjaman7] [] [])
             (λ c, bool_decide (ref_col c = colR)) in
  let out := run (handleApprove {| ar_idPinjam := "0007";
                                   ar_approver := "Pak Hasan";
                                   ar_statusPersetujuan := "Approved" |}) w in
  updates out.2
  = [(formPeminjam colQ 5, ["Approved"], true);
     (formPeminjam colR 5, ["2025-01-10 08:00:00"], false)]
  ∧ replies out.2 = [(500, "Gagal update tanggal persetujuan")]
  ∧ ledgerAfter (updates out.2) ∅ !! formPeminjam colS 5 = None.
Proof. repeat split; reflexivity. Qed.

(** C9, amended.  With the three fields present, the services there and a
    row found for the identifier, [handleApprove] asks for the writes of
    the status, the date and the approver, in this order and one cell each,
    in columns Q, R and S of the line of the loan, and stops at the first
    write the ledger refuses.  Either the three cells are written, the
    caller is told so and nothing is logged, or the run has stopped at a
    refused write, all the writes before it accepted, with the reply 500
    and the log line of that write.  In both cases no other cell of the
    ledger changes, no document is asked for and no notification is
    sent. *)
Theorem handleApprove_writes_three_cells (w : World) (q : approveRequest)
    (rows : list row) :
  missingField q = false →
  credentials_ok w [] = true →
  sheets_get w [] "Form Peminjam!A5:A" = rowsRead rows →
  approveRowIndex (ar_idPinjam q) rows ≠ -1 →
  let line := approveRowIndex (ar_idPinjam q) rows in
  let out := run (handleApprove q) w in
  let us := updates out.2 in
  (∃ stamp,
     (fst <$> us) `prefix_of`
       [(formPeminjam colQ line, [ar_statusPersetujuan q]);
        (formPeminjam colR line, [stamp]);
        (formPeminjam colS line, [ar_approver q])]
     ∧ (length us = 3%nat ∧ Forall (λ u, u.2 = true) us
        ∧ replies out.2 = [(200, "Approval berhasil dikirim")]
        ∧ out.1 = Done () ∧ logged out.2 = []
        ∨ ∃ k u, (k < 3)%nat ∧ length us = S k
                 ∧ Forall (λ u, u.2 = true) (take k us)
                 ∧ last us = Some u ∧ u.2 = false ∧ out.1 = Returned
                 ∧ replies out.2 = [(500, refusalReply k)]
                 ∧ logged out.2 = [refusalLog k]))
  ∧ renders out.2 = []
  ∧ posts out.2 = []
  ∧ ∀ (l : gmap cellRef string) c,
      c ∉ approveCells line → ledgerAfter us l !! c = l !! c.
Proof.
  intros Hm Hc Hg Hr line out us. subst us out.
  unfold run, handleApprove. rewrite Hm.
  unfold mbind, M_bind, getServices, valuesGet, valuesUpdate, timeNowFormat,
    httpError, write, log, emit, return_.
  rewrite Hc. cbn [negb]. rewrite Hg. unfold rowsRead. cbv beta iota zeta.
  fold line. destruct (Z.eqb_spec line (-1)) as [E|_]; [done|].
  cbn [app].
  destruct (sheets_update w _ (formPeminjam colQ line) _) eqn:E1;
    cbn [negb]; cbv beta iota zeta.
  2: { split; [exists ""; split; [by eexists|right]|].
       { exists 0%nat. eexists. cbn. repeat split; try done. lia. }
       repeat split; try done. }
  set (stamp := now_format w _ _).
  destruct (sheets_update w _ (formPeminjam colR line) _) eqn:E2;
    cbn [negb]; cbv beta iota zeta.
  2: { split; [exists stamp; split; [by eexists|right]|].
       { exists 1%nat. eexists. cbn. repeat split; try done; [lia|].
         by repeat constructor. }
       repeat split; try done. intros l c Hn. cbn.
       apply lookup_insert_ne. intros <-. apply Hn. set_solver. }
  destruct (sheets_update w _ (formPeminjam colS line) _) eqn:E3;
    cbn [negb]; cbv beta iota zeta.
  2: { split; [exists stamp; split; [by eexists|right]|].
       { exists 2%nat. eexists. cbn. repeat split; try done; [lia|].
         by repeat constructor. }
       repeat split; try done. intros l c Hn. cbn.
       rewrite !lookup_insert_ne; [done|..]; intros <-; apply Hn;
         set_solver. }
  split; [exists stamp; split; [by exists []|left]|].
  { cbn. repeat split; try done. by repeat constructor. }
  repeat split; try done. intros l c Hn. cbn.
  rewrite !lookup_insert_ne; [done|..]; intros <-; apply Hn; set_solver.
Qed.

Lemma handleApprove_writes_three_cells_witness :
  let out := run (handleApprove {| ar_idPinjam := "0007";
                                   ar_approver := "Pak Hasan";
                                   ar_statusPersetujuan := "Approved" |})
               (calmWorld (sheetsOf [pinjaman7] [] [])) in
  let us := updates out.2 in
  (∃ stamp,
     (fst <$> us) `prefix_of`
       [(formPeminjam colQ 5, ["Approved"]);
        (formPeminjam colR 5, [stamp]);
        (formPeminjam colS 5, ["Pak Hasan"])]
     ∧ (length us = 3%nat ∧ Forall (λ u, u.2 = true) us
        ∧ replies out.2 = [(200, "Approval berhasil dikirim")]
        ∧ out.1 = Done () ∧ logged out.2 = []
        ∨ ∃ k u, (k < 3)%nat ∧ length us = S k
                 ∧ Forall (λ u, u.2 = true) (take k us)
                 ∧ last us = Some u ∧ u.2 = false ∧ out.1 = Returned
                 ∧ replies out.2 = [(500, refusalReply k)]
                 ∧ logged out.2 = [refusalLog k]))
  ∧ renders out.2 = []
  ∧ posts out.2 = []
  ∧ ∀ (l : gmap cellRef string) c,
      c ∉ approveCells 5 → ledgerAfter us l !! c = l !! c.
Proof.
  apply (handleApprove_writes_three_cells
           (calmWorld (sheetsOf [pinjaman7] [] []))
           {| ar_idPinjam := "0007"; ar_approver := "Pak Hasan";
              ar_statusPersetujuan := "Approved" |} [["0007"]]);
    [reflexivity..|discriminate].
Defined.

(** ** The approval joined into the return document *)

Lemma renders_Forall (P : renderRequest → Prop) new :
  Forall (λ e, match e with Render req _ => P req | _ => True end) new →
  Forall P (renders new).
Proof. induction 1 as [|[] ? ? ?]; simpl; auto. Qed.

Lemma returnForm_no_approval r kondisi ket form :
  returnForm r kondisi ket = Some form →
  ApprovalDate form = "" ∧ ApprovalStatus form = "" ∧ ApproverName form = "".
Proof.
  unfold returnForm. intros H.
  repeat match type of H with
         | (_ ≫= _) = Some _ =>
             apply bind_Some in H as (? & _ & H)
         end.
  injection H as <-.
  by destruct (r !! 10%nat), (r !! 12%nat).
Qed.

(** The fields of the first approval row that matches. *)
Lemma joinApproval_fields id approvalRows j a form :
  findRow (approvalMatch id) approvalRows = Some (j, a) →
  ApprovalStatus form = "" →
  let joined := joinApproval id approvalRows form in
  Some (ApprovalDate joined) = a !! 1%nat
  ∧ ApprovalStatus joined = col a 5
  ∧ Some (ApproverName joined) = a !! 3%nat.
Proof.
  intros Hf Hs. unfold joinApproval. rewrite Hf.
  apply findRowFrom_Some in Hf as (_ & _ & Ht & _).
  unfold approvalMatch in Ht.
  destruct a as [|a0 [|a1 [|a2 [|a3 [|a4 [|a5 a]]]]]]; try done.
Qed.

Lemma bind_run {A B} (m : M A) (f : A → M B) w tr a tr' :
  m w tr = (Done a, tr') → (m ≫= f) w tr = f a w tr'.
Proof. intros H. unfold mbind, M_bind. by rewrite H. Qed.

Section ReturnDocument.

Context (w : World).

Lemma spec_uploadReturnPhoto allowed localPath form :
  (∀ e, isRender e = false → allowed e) →
  spec w allowed (uploadReturnPhoto localPath form)
    (λ f, ApprovalDate f = ApprovalDate form
          ∧ ApprovalStatus f = ApprovalStatus form
          ∧ ApproverName f = ApproverName form).
Proof.
  intros Ha tr. unfold uploadReturnPhoto.
  destruct (String.eqb localPath "").
  - exists []. by rewrite app_nil_r.
  - unfold mbind, M_bind, uploadToDrive, log, emit, mret, M_ret.
    destruct (upload_to_drive w tr localPath) as [url|]; cbn.
    + eexists [_; _]. rewrite <- app_assoc. split; [done|].
      split; [|done]. repeat constructor; by apply Ha.
    + eexists [_; _; _]. rewrite <- !app_assoc. split; [done|].
      split; [|done]. repeat constructor; by apply Ha.
Qed.

(** From the upload on, every request for a document carries the
    approval fields of the form. *)
Lemma pengembalianFinish_document id kondisi ket localPath form :
  spec w (λ e, match e with
               | Render req _ =>
                   carriesApproval (Some (ApprovalDate form))
                     (Some (ApprovalStatus form))
                     (Some (ApproverName form)) req
               | _ => True
               end)
    (pengembalianFinish id kondisi ket localPath form) (λ _, True).
Proof.
  unfold pengembalianFinish.
  eapply spec_bind; [apply spec_uploadReturnPhoto; by intros []|].
  intros f (Hd & Hs & Hn). spec_unfold.
  spec_walk ltac:(idtac).
  all: try done.
  intros _. unfold carriesApproval. cbn [rr_replacements].
  rewrite <- Hd, <- Hs, <- Hn.
  repeat split; by simplify_map_eq.
Qed.

End ReturnDocument.

(** C3, as stated, fails: two approvals match the loan, a refusal by
    Pak Hasan and then an agreement by Bu Rina.  The most recent one is
    the agreement, but the return document carries the refusal, which is
    the first one in the sheet. *)
Lemma pengembalian_joins_first_not_latest :
  let out := run (pengembalianWorker "7" "Baik" "" "")
               (calmWorld (sheetsOf [pinjaman7] duaPersetujuan [])) in
  lastRow (approvalMatch "7") duaPersetujuan
  = Some ["0002"; "2025-01-12"; "Budi"; "Bu Rina"; "7"; "Approved"]
  ∧ ∃ req, renders out.2 = [req]
           ∧ carriesApproval (Some "2025-01-11") (Some "Rejected")
               (Some "Pak Hasan") req.
Proof.
  split; [vm_compute; reflexivity|].
  eexists. split; [vm_compute; reflexivity|].
  repeat split; vm_compute; reflexivity.
Qed.

(** C3, amended.  When the loan row is found and the approval sheet is
    read, the return joins in the first approval row, in the order of the
    sheet, whose fifth column matches the identifier once the leading
    zeros are set aside: every request for the return document carries the
    date, the status and the approver of that row.  An approval that
    refers to the loan as 0007 is so joined into a return for 7. *)
Theorem pengembalian_joins_first_approval (w : World) (tr : trace)
    (idPeminjam kondisiAlat keteranganPengembalian localPath : string)
    (vr : ValueRange) (i j : Z) (r a : row) (form : FormData)
    (approvalRows : list row) :
  credentials_ok w tr = true →
  sheets_get w tr "Form Peminjam!A5:Z" = GetOk (Some vr) →
  findRow (tolerantMatch idPeminjam) (rowsOf vr) = Some (i, r) →
  returnForm r kondisiAlat keteranganPengembalian = Some form →
  sheets_get w (tr ++ [SheetsGet "Form Peminjam!A5:Z" (GetOk (Some vr))])
    "Approval Peminjaman!A6:F" = rowsRead approvalRows →
  findRow (approvalMatch idPeminjam) approvalRows = Some (j, a) →
  let out :=
    pengembalianWorker idPeminjam kondisiAlat keteranganPengembalian
      localPath w tr in
  Forall (carriesApproval (a !! 1%nat) (Some (col a 5)) (a !! 3%nat))
    (renders (added tr out.2)).
Proof.
  intros Hc Hg Hf Hr Ha Hj out. subst out.
  destruct (returnForm_no_approval _ _ _ _ Hr) as (_ & Hs & _).
  destruct (joinApproval_fields idPeminjam approvalRows j a form Hj Hs)
    as (Ed & Es & En).
  unfold pengembalianWorker.
  erewrite bind_run by (unfold getServices; by rewrite Hc).
  cbn [negb].
  erewrite bind_run by (unfold valuesGet; by rewrite Hg).
  cbv beta iota. rewrite Hf, Hr.
  erewrite bind_run; cycle 1.
  { unfold fetchApproval.
    erewrite bind_run by (unfold valuesGet; by rewrite Ha).
    reflexivity. }
  destruct (pengembalianFinish_document w idPeminjam kondisiAlat
              keteranganPengembalian localPath
              (joinApproval idPeminjam approvalRows form)
              ((tr ++ [SheetsGet "Form Peminjam!A5:Z" (GetOk (Some vr))])
               ++ [SheetsGet "Approval Peminjaman!A6:F"
                     (rowsRead approvalRows)]))
    as (new & -> & F & _).
  rewrite <- !app_assoc, added_app. cbn [app renders].
  apply renders_Forall. eapply Forall_impl; [exact F|].
  intros [] H; try done. by rewrite <- Ed, <- Es, <- En.
Qed.

Lemma pengembalian_joins_first_approval_witness :
  let out := pengembalianWorker "7" "Baik" "" ""
               (calmWorld (sheetsOf [pinjaman7] satuPersetujuan [])) [] in
  Forall (carriesApproval (Some "2025-01-11") (Some "Approved")
            (Some "Pak Hasan")) (renders (added [] out.2))
  ∧ length (renders out.2) = 1%nat.
Proof.
  split; [|reflexivity].
  apply (pengembalian_joins_first_approval
           (calmWorld (sheetsOf [pinjaman7] satuPersetujuan [])) []
           "7" "Baik" "" "" {| Values := Some [pinjaman7] |} 0 0 pinjaman7
           ["0001"; "2025-01-11"; "Budi"; "Pak Hasan"; "0007"; "Approved"]
           {| Nama := "Budi"; Kelas := "XI RPL"; NIS := "1234";
              NoWA := "081234567890"; NamaAlat := "Kamera"; JumlahAlat := 3;
              TanggalPinjam := "2025-01-10"; TanggalKembali := "2025-01-15";
              Keterangan := ""; KeteranganPinjam := "Praktik"; FotoPath := "";
              PeminjamanFotoPath := "https://drive.google.com/uc?id=fotopinjam";
              ApprovalStatus := ""; KondisiAlat := "Baik";
              KeteranganPengembalian := ""; ApprovalDate := "";
              ApproverName := "" |}
           satuPersetujuan);
    reflexivity.
Defined.

(** ** Rules for monitored runs *)

Lemma monitor_app {S} (step : S → event → option S) s new1 new2 :
  monitor step s (new1 ++ new2)
  = monitor step s new1 ≫= λ s', monitor step s' new2.
Proof.
  revert s. induction new1 as [|e new1 IH]; intros s; simpl; [done|].
  by destruct (step s e).
Qed.

Section Monitored.

Context {S : Type} (w : World) (step : S → event → option S).

Lemma wp_ret {A} (a : A) post s :
  post (Done a) s → wp w step (mret a) post s.
Proof. intros H tr. exists [], s. by rewrite app_nil_r. Qed.

Lemma wp_return {A} (post : result A → S → Prop) s :
  post Returned s → wp w step return_ post s.
Proof. intros H tr. exists [], s. by rewrite app_nil_r. Qed.

Lemma wp_panic {A} (post : result A → S → Prop) s :
  post Panicked s → wp w step panic post s.
Proof. intros H tr. exists [], s. by rewrite app_nil_r. Qed.

Lemma wp_bind {A B} (m : M A) (f : A → M B) post s :
  wp w step m
    (λ r s', match r with
             | Done a => wp w step (f a) post s'
             | Returned => post Returned s'
             | Panicked => post Panicked s'
             end) s →
  wp w step (m ≫= f) post s.
Proof.
  intros H tr. destruct (H tr) as (n1 & s1 & E1 & M1 & Q1).
  unfold mbind, M_bind.
  destruct (m w tr) as [[a| |] tr1]; simpl in *; subst;
    [|by exists n1, s1..].
  destruct (Q1 (tr ++ n1)) as (n2 & s2 & E2 & M2 & Q2).
  exists (n1 ++ n2), s2. rewrite E2, app_assoc. split; [done|].
  split; [|done]. rewrite monitor_app, M1. done.
Qed.

Lemma wp_mono {A} (m : M A) (post post' : result A → S → Prop) s :
  wp w step m post s → (∀ r s', post r s' → post' r s') →
  wp w step m post' s.
Proof.
  intros H Hi tr. destruct (H tr) as (new & s' & E & Hm & P).
  exists new, s'. auto.
Qed.

(** A piece walked on its own: [mid] holds of its value and of the state
    of the monitor after it, and the rest is walked from any such state. *)
Lemma wp_bind_mid {A B} (m : M A) (f : A → M B) (mid : A → S → Prop)
    post s :
  wp w step m
    (λ r s', match r with
             | Done a => mid a s'
             | Returned => post Returned s'
             | Panicked => post Panicked s'
             end) s →
  (∀ a s', mid a s' → wp w step (f a) post s') →
  wp w step (m ≫= f) post s.
Proof.
  intros Hm Hf. apply wp_bind. eapply wp_mono; [exact Hm|].
  intros [a| |] s'; auto.
Qed.

Lemma wp_bind_assoc {A B C} (m : M A) (f : A → M B) (g : B → M C) post s :
  wp w step (m ≫= λ a, f a ≫= g) post s →
  wp w step ((m ≫= f) ≫= g) post s.
Proof.
  intros H tr. destruct (H tr) as (new & s' & E & Hm & P).
  exists new, s'. revert E P. unfold mbind, M_bind.
  by destruct (m w tr) as [[a| |] tr'].
Qed.

Lemma wp_emit e (post : result unit → S → Prop) s :
  (∃ s', step s e = Some s' ∧ post (Done ()) s') →
  wp w step (emit e) post s.
Proof.
  intros (s' & E & H) tr. exists [e], s'. simpl. by rewrite E.
Qed.

Lemma wp_getServices (post : result bool → S → Prop) s :
  (∀ h ok, ok = credentials_ok w h → post (Done ok) s) →
  wp w step getServices post s.
Proof.
  intros H tr. exists [], s. rewrite app_nil_r.
  repeat split; try done. by eapply H.
Qed.

Lemma wp_askWorld (post : result World → S → Prop) s :
  post (Done w) s → wp w step askWorld post s.
Proof. intros H tr. exists [], s. by rewrite app_nil_r. Qed.

Lemma wp_timeNowFormat layout (post : result string → S → Prop) s :
  (∀ text, post (Done text) s) → wp w step (timeNowFormat layout) post s.
Proof.
  intros H tr. exists [], s. rewrite app_nil_r.
  split; [done|]. split; [done|apply H].
Qed.

Lemma wp_osGetenv key (post : result string → S → Prop) s :
  (∀ text, post (Done text) s) → wp w step (osGetenv key) post s.
Proof.
  intros H tr. exists [], s. rewrite app_nil_r.
  split; [done|]. split; [done|apply H].
Qed.

Lemma wp_getSalam (post : result string → S → Prop) s :
  (∀ text, post (Done text) s) → wp w step getSalam post s.
Proof.
  intros H tr. exists [], s. rewrite app_nil_r.
  split; [done|]. split; [done|apply H].
Qed.

Lemma wp_valuesGet range (post : result getResult → S → Prop) s :
  (∀ h res, res = sheets_get w h range →
     ∃ s', step s (SheetsGet range res) = Some s' ∧ post (Done res) s') →
  wp w step (valuesGet range) post s.
Proof.
  intros H tr. destruct (H tr _ eq_refl) as (s' & E & P).
  eexists [_], s'. simpl. by rewrite E.
Qed.

Lemma wp_valuesUpdate at_ values (post : result bool → S → Prop) s :
  (∀ h ok, ok = sheets_update w h at_ values →
     ∃ s', step s (SheetsUpdate at_ values ok) = Some s'
           ∧ post (Done ok) s') →
  wp w step (valuesUpdate at_ values) post s.
Proof.
  intros H tr. destruct (H tr _ eq_refl) as (s' & E & P).
  eexists [_], s'. simpl. by rewrite E.
Qed.

Lemma wp_uploadToDrive localPath (post : result (option string) → S → Prop)
    s :
  (∀ h res, res = upload_to_drive w h localPath →
     ∃ s', step s (Upload localPath (bool_decide (is_Some res))) = Some s'
           ∧ post (Done res) s') →
  wp w step (uploadToDrive localPath) post s.
Proof.
  intros H tr. destruct (H tr _ eq_refl) as (s' & E & P).
  eexists [_], s'. simpl. by rewrite E.
Qed.

Lemma wp_saveFileLocally filename (post : result string → S → Prop) s :
  (∀ path, ∃ s', step s (SaveFile filename) = Some s'
                 ∧ post (Done path) s') →
  wp w step (saveFileLocally filename) post s.
Proof.
  intros H tr. destruct (H (save_file w tr filename)) as (s' & E & P).
  eexists [_], s'. simpl. by rewrite E.
Qed.

Lemma wp_renderDocument req
    (post : result (option (string * string)) → S → Prop) s :
  (∀ h res, res = render w h req →
     ∃ s', step s (Render req (bool_decide (is_Some res))) = Some s'
           ∧ post (Done res) s') →
  wp w step (renderDocument req) post s.
Proof.
  intros H tr. destruct (H tr _ eq_refl) as (s' & E & P).
  eexists [_], s'. simpl. by rewrite E.
Qed.

Lemma wp_post number pesan (post_ : result postResult → S → Prop) s :
  (∀ res, ∃ s', step s (HttpPost number pesan res) = Some s'
                ∧ post_ (Done res) s') →
  wp w step (post number pesan) post_ s.
Proof.
  intros H tr. destruct (H (wa_post w tr number pesan)) as (s' & E & P).
  eexists [_], s'. simpl. by rewrite E.
Qed.

(** What an accepted run says about the trace of [run]. *)
Lemma wp_run {A} (m : M A) post s :
  wp w step m post s →
  ∃ s', monitor step s (run m w).2 = Some s' ∧ post (run m w).1 s'.
Proof.
  intros H. destruct (H []) as (new & s' & E & Hm & P).
  exists s'. unfold run. by rewrite E.
Qed.

End Monitored.

(** [wp_walk rel tac] follows the program.  A piece that branches and is
    followed by more is walked on its own, to a state of the monitor
    related by [rel] to the one it started from; [tac] is run each time a
    value is bound, a case is split or an event is about to be shown to
    the monitor. *)
Ltac wp_event tac :=
  tac; (eexists; split; [reflexivity|]).

Ltac wp_walk rel tac :=
  cbv beta iota zeta;
  lazymatch goal with
  | |- wp _ _ ?m _ ?s =>
      lazymatch m with
      | mbind _ ?m1 =>
          lazymatch m1 with
          | mbind _ _ => apply wp_bind_assoc; wp_walk rel tac
          | match _ with _ => _ end =>
              eapply (wp_bind_mid _ _ _ _ (λ _ s', rel s s'));
              [wp_walk rel tac | intros ? ? ?; tac; wp_walk rel tac]
          | _ => apply wp_bind; wp_walk rel tac
          end
      | mret _ => apply wp_ret; wp_walk rel tac
      | return_ => apply wp_return; cbv beta iota zeta
      | panic => apply wp_panic; cbv beta iota zeta
      | emit _ => apply wp_emit; wp_event tac; wp_walk rel tac
      | getServices =>
          apply wp_getServices; intros ? ? ?; tac; wp_walk rel tac
      | askWorld => apply wp_askWorld; wp_walk rel tac
      | timeNowFormat _ =>
          apply wp_timeNowFormat; intros ?; wp_walk rel tac
      | osGetenv _ => apply wp_osGetenv; intros ?; wp_walk rel tac
      | getSalam => apply wp_getSalam; intros ?; wp_walk rel tac
      | valuesGet _ =>
          apply wp_valuesGet; intros ? ? ?; wp_event tac; wp_walk rel tac
      | valuesUpdate _ _ =>
          apply wp_valuesUpdate; intros ? ? ?; wp_event tac;
          wp_walk rel tac
      | uploadToDrive _ =>
          apply wp_uploadToDrive; intros ? ? ?; wp_event tac;
          wp_walk rel tac
      | saveFileLocally _ =>
          apply wp_saveFileLocally; intros ?; wp_event tac; wp_walk rel tac
      | renderDocument _ =>
          apply wp_renderDocument; intros ? ? ?; wp_event tac;
          wp_walk rel tac
      | post _ _ => apply wp_post; intros ?; wp_event tac; wp_walk rel tac
      | match ?x with _ => _ end =>
          destruct x eqn:?; tac; wp_walk rel tac
      | _ => idtac
      end
  | |- _ => idtac
  end.

Ltac wp_unfold :=
  unfold serve, handlePinjam, handleApprove, handleApprovalRequestNew,
    handlePengembalian, pinjamWorker, pengembalianWorker, pengembalianFinish,
    kirimDanCatat, kirimPesanWaBangkit, approverNumber, generateSurat,
    generateSuratApproval, generateSuratPengembalian, fetchApproval,
    fallbackNoWA, readSheetData, uploadReturnPhoto, httpError, write, log.

(** The answers of the collaborators are kept as equations; a proof that
    does not use them forgets them. *)
Ltac forget_answers :=
  repeat match goal with
         | K : _ = credentials_ok _ _ |- _ => clear K
         | K : _ = sheets_get _ _ _ |- _ => clear K
         | K : _ = sheets_update _ _ _ _ |- _ => clear K
         | K : _ = upload_to_drive _ _ _ |- _ => clear K
         | K : _ = render _ _ _ |- _ => clear K
         end.

(** The name tested against itself in [pinjamWorker]: the branch that
    would rewrite the name in the sheet cannot be taken. *)
Ltac same_name :=
  try match goal with
      | K : negb (String.eqb _ _) = true |- _ =>
          cbn in K; rewrite String.eqb_refl in K; discriminate K
      end.

Lemma only_Forall ok new :
  monitor (only ok) () new = Some () ↔ Forall (λ e, ok e = true) new.
Proof.
  induction new as [|e new IH]; simpl; [by split|].
  unfold only at 1. destruct (ok e) eqn:E.
  - rewrite IH. split; [by constructor|by inversion 1].
  - split; [done|]. inversion 1. congruence.
Qed.

(** ** Where the messages go *)

Lemma posts_Forall (P : string * message → Prop) new :
  Forall (λ e, match e with
               | HttpPost number pesan _ => P (number, pesan)
               | _ => True
               end) new →
  Forall P (posts new).
Proof. induction 1 as [|[] ? ? ?]; simpl; auto. Qed.

Ltac to_62 :=
  forget_answers; same_name;
  repeat match goal with
         | K : negb (HasPrefix _ "62") = false |- _ =>
             apply negb_false_iff in K
         end;
  try (unfold only; cbn [sendsTo62];
       match goal with
       | K : HasPrefix ?n "62" = true |- context [HasPrefix ?n "62"] =>
           rewrite K
       end).

Lemma serve_sendsTo62 w r : wp w (only sendsTo62) (serve r) (λ _ _, True) ().
Proof.
  destruct r; wp_unfold; wp_walk (λ _ _ : unit, True) ltac:(to_62).
  all: done.
Qed.

(** X1.  Whatever the request and whatever the collaborators answer, every
    message a handler sends goes to a number that begins with 62. *)
Theorem serve_sends_only_to_62 (w : World) (r : request) :
  Forall (λ p, HasPrefix p.1 "62" = true) (posts (run (serve r) w).2).
Proof.
  destruct (wp_run w _ _ _ _ (serve_sendsTo62 w r)) as ([] & H & _).
  apply only_Forall in H. apply posts_Forall.
  eapply Forall_impl; [exact H|]. by intros [].
Qed.

(** ** The failed read of the extent, event by event *)

Ltac abort_tac :=
  forget_answers; same_name;
  repeat match goal with
         | K : ?a = ?b |- _ =>
             is_var b;
             lazymatch type of b with abortPhase => subst b end
         end;
  try match goal with
      | |- ∃ s', abortStep _ _ (SheetsGet _ ?r) = Some s' ∧ _ =>
          is_var r; destruct r
      end.

Lemma runPipeline_abort w p :
  wp w (abortStep p) (runPipeline p) abortPost Clean.
Proof.
  destruct p; cbn [runPipeline]; wp_unfold; wp_walk (@eq abortPhase) abort_tac.
  all: done.
Qed.

Lemma sameLocal_eq e e' : sameLocal e e' = true → e = e'.
Proof.
  destruct e, e'; simpl; try done.
  - by intros ->%String.eqb_eq.
  - intros [H1 H2]%andb_prop.
    apply Z.eqb_eq in H1 as ->. by apply String.eqb_eq in H2 as ->.
Qed.

Lemma isFailedExtentRead_eq p e :
  isFailedExtentRead p e = true ↔ e = failedExtentRead p.
Proof.
  unfold failedExtentRead. split.
  - destruct e as [| | | | |range [|resp]| | |]; simpl; try done.
    by intros ->%String.eqb_eq.
  - intros ->. simpl. apply String.eqb_refl.
Qed.

Lemma monitor_Dirty p new s :
  monitor (abortStep p) Dirty new = Some s → failedExtentRead p ∉ new.
Proof.
  induction new as [|e new IH]; simpl; [intros _; apply not_elem_of_nil|].
  destruct (isFailedExtentRead p e) eqn:E; [done|].
  intros H%IH. apply not_elem_of_cons. split; [|done].
  intros Heq. symmetry in Heq. apply isFailedExtentRead_eq in Heq.
  congruence.
Qed.

Lemma monitor_Tail p t new s :
  monitor (abortStep p) (Tail t) new = Some s →
  ∃ t', s = Tail t' ∧ t = new ++ t'.
Proof.
  revert t. induction new as [|e new IH]; intros t; simpl.
  - intros [= <-]. by exists t.
  - destruct t as [|e' t]; [done|].
    destruct (sameLocal e e') eqn:E; [|done].
    apply sameLocal_eq in E as ->.
    intros (t' & -> & ->)%IH. by exists t'.
Qed.

Lemma soils_clean p e rest :
  soils p e = false →
  updates (e :: rest) = updates rest ∧ posts (e :: rest) = posts rest
  ∧ match p with
    | Approve _ => True
    | _ => renders (e :: rest) = renders rest
    end.
Proof. unfold soils. by destruct e, p. Qed.

Lemma monitor_Clean p new s r :
  monitor (abortStep p) Clean new = Some s →
  abortPost r s →
  failedExtentRead p ∈ new →
  r = Returned
  ∧ (∃ pre, new = pre ++ failedExtentRead p :: abortTail p)
  ∧ updates new = []
  ∧ posts new = []
  ∧ match p with
    | Approve _ => True
    | _ => renders new = []
    end.
Proof.
  induction new as [|e new IH]; [by intros _ _ ?%elem_of_nil|].
  cbn [monitor abortStep].
  destruct (isFailedExtentRead p e) eqn:E.
  - apply isFailedExtentRead_eq in E as ->.
    intros (t' & -> & Ht)%monitor_Tail Hp _.
    destruct t' as [|? ?]; [|done]. rewrite app_nil_r in Ht. subst new.
    cbn in Hp. split; [done|]. split; [by exists []|].
    by destruct p.
  - destruct (soils p e) eqn:Es.
    + intros Hd%monitor_Dirty _ [Heq|Hin]%elem_of_cons; [|done].
      symmetry in Heq. apply isFailedExtentRead_eq in Heq. congruence.
    + intros Hm Hp [Heq|Hin]%elem_of_cons.
      { symmetry in Heq. apply isFailedExtentRead_eq in Heq. congruence. }
      destruct (IH Hm Hp Hin) as (Hr & (pre & ->) & Hu & Hs & Hd).
      destruct (soils_clean p e (pre ++ failedExtentRead p :: abortTail p) Es)
        as (-> & -> & Hn).
      split; [done|]. split; [by exists (e :: pre)|].
      do 2 (split; [done|]). destruct p; [by rewrite Hn|done|by rewrite Hn].
Qed.

(** C6, amended.  In each of the three pipelines, when the read that
    measures the region is made and fails, the pipeline stops there: the
    failed read is followed by the log of the error (after the reply 500
    for the approval) and by nothing else, the run ends by [return], and
    the whole run has written nothing to the ledger and notified nobody;
    the submission and the return have not asked for a document either.
    The ordinal 1 is for a read that succeeds and returns no rows, or a nil
    answer. *)
Theorem extent_read_failure_aborts (w : World) (p : pipeline) (tr : trace) :
  let out := runPipeline p w tr in
  let new := added tr out.2 in
  failedExtentRead p ∈ new →
  out.1 = Returned
  ∧ (∃ pre, new = pre ++ failedExtentRead p :: abortTail p)
  ∧ updates new = []
  ∧ posts new = []
  ∧ match p with
    | Approve _ => True
    | _ => renders new = []
    end
  ∧ allocateNext p (Some {| Values := Some [] |}) = 1
  ∧ allocateNext p (Some {| Values := None |}) = 1
  ∧ allocateNext p None = 1.
Proof.
  intros out new Hin. subst new out.
  destruct (runPipeline_abort w p tr) as (new & s & E & Hm & Hp).
  rewrite E, added_app in *.
  destruct (monitor_Clean p new s _ Hm Hp Hin) as (?&?&?&?&?).
  repeat split; try done; by destruct p.
Qed.

Lemma extent_read_failure_witness :
  let p := Return "7" "Baik" "" "" in
  let out := runPipeline p (calmWorld pengembalianDown) [] in
  let new := added [] out.2 in
  out.1 = Returned
  ∧ (∃ pre,
       new = pre ++ [SheetsGet "Form Pengembalian!B5:B" GetErr;
                     Log "Gagal mengambil data dari Sheets pengembalian"])
  ∧ updates new = []
  ∧ posts new = []
  ∧ renders new = []
  ∧ allocateNext p (Some {| Values := Some [] |}) = 1
  ∧ allocateNext p (Some {| Values := None |}) = 1
  ∧ allocateNext p None = 1.
Proof.
  apply (extent_read_failure_aborts (calmWorld pengembalianDown)
           (Return "7" "Baik" "" "") []).
  vm_compute. repeat constructor.
Defined.

(** ** The region a request writes to *)

Lemma nextRow_pos resp : 1 ≤ nextRow resp.
Proof.
  destruct resp as [[[rows|]]|]; simpl; try lia.
  case_bool_decide; lia.
Qed.

Lemma approvalRowNum_pos resp : 6 ≤ approvalRowNum resp.
Proof. destruct resp as [[[rows|]]|]; simpl; lia. Qed.

Lemma approveRowIndex_pos id rows :
  (approveRowIndex id rows =? -1) = false → 5 ≤ approveRowIndex id rows.
Proof.
  unfold approveRowIndex, findRow.
  destruct (findRowFrom _ 0 rows) as [[i r]|] eqn:E; [|done].
  apply findRowFrom_Some in E as (Hi & _). lia.
Qed.

Lemma inRegion_pinjam q resp values :
  length values = 16%nat →
  inRegion (ReqPinjam q) (formPeminjam colA (nextRow resp + 4)) values = true.
Proof.
  intros H. unfold inRegion. cbn. rewrite H. cbn.
  pose proof (nextRow_pos resp). apply Z.leb_le. lia.
Qed.

Lemma inRegion_pengembalian q resp values :
  length values = 6%nat →
  inRegion (ReqPengembalian q) (formPengembalian colA (nextRow resp + 4))
    values = true.
Proof.
  intros H. unfold inRegion. cbn. rewrite H. cbn.
  pose proof (nextRow_pos resp). apply Z.leb_le. lia.
Qed.

Lemma inRegion_approval q resp values :
  length values = 6%nat →
  inRegion (ReqApprovalRequestNew q) (approvalSheet colA (approvalRowNum resp))
    values = true.
Proof.
  intros H. unfold inRegion. cbn. rewrite H. cbn.
  pose proof (approvalRowNum_pos resp). apply Z.leb_le. lia.
Qed.

Lemma inRegion_approve q id rows column v :
  (approveRowIndex id rows =? -1) = false →
  column = colQ ∨ column = colR ∨ column = colS →
  inRegion (ReqApprove q) (formPeminjam column (approveRowIndex id rows)) [v]
  = true.
Proof.
  intros H%approveRowIndex_pos Hc. unfold inRegion. cbn.
  replace (5 <=? _) with true by (symmetry; apply Z.leb_le; lia).
  by destruct Hc as [->|[->| ->]].
Qed.

Ltac region_tac :=
  forget_answers; same_name;
  try (unfold only; cbn [writesInRegion];
       first [ rewrite inRegion_pinjam by done
             | rewrite inRegion_pengembalian by done
             | rewrite inRegion_approval by done
             | rewrite inRegion_approve by (first [done | auto]) ]).

Lemma serve_writesInRegion w r :
  wp w (only (writesInRegion r)) (serve r) (λ _ _, True) ().
Proof.
  destruct r; wp_unfold; wp_walk (λ _ _ : unit, True) ltac:(region_tac).
  all: done.
Qed.

Lemma writeCells_other at_ values (l : gmap cellRef string) c :
  ref_sheet c ≠ ref_sheet at_ ∨ ref_line c ≠ ref_line at_ →
  writeCells at_ values l !! c = l !! c.
Proof.
  revert at_ l. induction values as [|v values IH]; intros at_ l H; [done|].
  cbn [writeCells]. rewrite IH by done.
  apply lookup_insert_ne. intros <-. by destruct H.
Qed.

Lemma ledgerAfter_other r us (l : gmap cellRef string) c :
  Forall (λ u, inRegion r u.1.1 u.1.2 = true) us →
  ref_sheet c ≠ regionSheet r ∨ ref_line c < 5 →
  ledgerAfter us l !! c = l !! c.
Proof.
  intros Hus Hc. revert l.
  induction Hus as [|[[at_ values] ok] us Hu _ IH]; intros l; [done|].
  cbn [ledgerAfter]. rewrite IH. destruct ok; [|done].
  apply writeCells_other. cbn in Hu. unfold inRegion in Hu.
  apply andb_prop in Hu as [Hs%String.eqb_eq Hr].
  destruct Hc as [Hc|Hc]; [left; congruence|right].
  assert (5 ≤ ref_line at_); [|lia].
  destruct r; repeat (apply andb_prop in Hr as [Hr ?]);
    match goal with K : (_ <=? _) = true |- _ => apply Z.leb_le in K end; lia.
Qed.

(** X2.  Whatever the collaborators answer, a request writes only to its
    own sheet and below the header: the submission rows of 16 cells from
    column A of the loan sheet, the plain approval single cells of its
    columns Q, R and S, the documented approval and the return rows of 6
    cells from column A of their sheets.  So every cell of another sheet,
    and every cell of the lines 1 to 4, keeps its content. *)
Theorem serve_writes_in_region (w : World) (r : request) :
  let us := updates (run (serve r) w).2 in
  Forall (λ u, inRegion r u.1.1 u.1.2 = true) us
  ∧ ∀ (l : gmap cellRef string) c,
      ref_sheet c ≠ regionSheet r ∨ ref_line c < 5 →
      ledgerAfter us l !! c = l !! c.
Proof.
  intros us.
  assert (Forall (λ u, inRegion r u.1.1 u.1.2 = true) us) as H.
  { destruct (wp_run w _ _ _ _ (serve_writesInRegion w r)) as ([] & H & _).
    apply only_Forall in H. apply updates_Forall.
    eapply Forall_impl; [exact H|]. by intros []. }
  split; [done|]. intros l c Hc. by eapply ledgerAfter_other.
Qed.

(** ** Requests that are turned away *)

(** X3.  An approval that lacks the identifier, the approver or the
    decision is turned away by both approval handlers: the only reply is
    the 400, the handler returns, and no collaborator is reached (the
    credentials are not read, no sheet is read or written, nothing is
    rendered or sent).  For [handleApprove] the reply is all that
    happens. *)
Theorem approve_missing_field (w : World) (q : approveRequest) :
  missingField q = true →
  run (handleApprove q) w
  = (Returned,
     [Reply 400 "ID Pinjam, Approver, dan Status Persetujuan harus diisi"])
  ∧ let out := run (handleApprovalRequestNew q) w in
    out.1 = Returned
    ∧ replies out.2
      = [(400, "ID Pinjam, Approver, dan Status Persetujuan harus diisi")]
    ∧ Forall (λ e, isLocal e = true) out.2.
Proof.
  intros H. unfold run, handleApprove, handleApprovalRequestNew.
  rewrite H. cbn. repeat split. by repeat constructor.
Qed.

Lemma approve_missing_field_witness :
  let q := {| ar_idPinjam := "0007"; ar_approver := "";
              ar_statusPersetujuan := "Approved" |} in
  let w := calmWorld (sheetsOf [pinjaman7] [] []) in
  run (handleApprove q) w
  = (Returned,
     [Reply 400 "ID Pinjam, Approver, dan Status Persetujuan harus diisi"])
  ∧ let out := run (handleApprovalRequestNew q) w in
    out.1 = Returned
    ∧ replies out.2
      = [(400, "ID Pinjam, Approver, dan Status Persetujuan harus diisi")]
    ∧ Forall (λ e, isLocal e = true) out.2.
Proof.
  apply (approve_missing_field (calmWorld (sheetsOf [pinjaman7] [] []))
           {| ar_idPinjam := "0007"; ar_approver := "";
              ar_statusPersetujuan := "Approved" |}).
  reflexivity.
Defined.

(** X4.  A return sent with another method than POST is answered at once,
    200 with no body for OPTIONS and 405 otherwise; the upload is not
    staged and the goroutine is not started. *)
Theorem pengembalian_other_method (w : World) (q : returnRequest) :
  rq_method q ≠ "POST" →
  run (handlePengembalian q) w
  = (Returned,
     [if String.eqb (rq_method q) "OPTIONS" then Reply 200 ""
      else Reply 405 "Method not allowed"]).
Proof.
  intros H. unfold run, handlePengembalian.
  destruct (String.eqb (rq_method q) "OPTIONS"); [done|].
  destruct (String.eqb_spec (rq_method q) "POST"); done.
Qed.

Lemma pengembalian_other_method_witness :
  run (handlePengembalian
         {| rq_method := "GET"; rq_idPeminjam := "7"; rq_kondisiAlat := "Baik";
            rq_keteranganPengembalian := ""; rq_foto := Some "kamera.jpg" |})
    (calmWorld (sheetsOf [pinjaman7] [] []))
  = (Returned, [Reply 405 "Method not allowed"]).
Proof.
  apply (pengembalian_other_method (calmWorld (sheetsOf [pinjaman7] [] []))
           {| rq_method := "GET"; rq_idPeminjam := "7";
              rq_kondisiAlat := "Baik"; rq_keteranganPengembalian := "";
              rq_foto := Some "kamera.jpg" |}).
  discriminate.
Defined.

(** ** A loan row that is too short *)

Lemma returnForm_None r kondisi ket :
  (length r < 10)%nat → returnForm r kondisi ket = None.
Proof.
  intros H. unfold returnForm.
  do 10 (destruct r as [|? r]; [done|]). simpl in H. lia.
Qed.

Lemma returnForm_Some r kondisi ket :
  (10 ≤ length r)%nat → is_Some (returnForm r kondisi ket).
Proof.
  intros H. unfold returnForm.
  do 10 (destruct r as [|? r]; [simpl in H; lia|]). by eexists.
Qed.

(** X5.  In a return, the columns C to J of the loan row that matches are
    read without a test of its length: when that row has fewer than ten
    columns the goroutine panics right after the read of the loan sheet,
    before any write, document or notification. *)
Theorem pengembalian_short_row_panics (w : World) (tr : trace)
    (idPeminjam kondisiAlat keteranganPengembalian localPath : string)
    (vr : ValueRange) (i : Z) (r : row) :
  credentials_ok w tr = true →
  sheets_get w tr "Form Peminjam!A5:Z" = GetOk (Some vr) →
  findRow (tolerantMatch idPeminjam) (rowsOf vr) = Some (i, r) →
  (length r < 10)%nat →
  pengembalianWorker idPeminjam kondisiAlat keteranganPengembalian localPath
    w tr
  = (Panicked, tr ++ [SheetsGet "Form Peminjam!A5:Z" (GetOk (Some vr))]).
Proof.
  intros Hc Hg Hf Hl. unfold pengembalianWorker.
  erewrite bind_run by (unfold getServices; by rewrite Hc).
  cbn [negb].
  erewrite bind_run by (unfold valuesGet; by rewrite Hg).
  cbv beta iota. rewrite Hf, returnForm_None by done. done.
Qed.

Lemma pengembalian_short_row_panics_witness :
  pengembalianWorker "7" "Baik" "" ""
    (calmWorld (sheetsOf [["0007"; "2025-01-10"; "Budi"]] [] [])) []
  = (Panicked,
     [SheetsGet "Form Peminjam!A5:Z"
        (rowsRead [["0007"; "2025-01-10"; "Budi"]])]).
Proof.
  apply (pengembalian_short_row_panics
           (calmWorld (sheetsOf [["0007"; "2025-01-10"; "Budi"]] [] [])) []
           "7" "Baik" "" ""
           {| Values := Some [["0007"; "2025-01-10"; "Budi"]] |} 0
           ["0007"; "2025-01-10"; "Budi"]); [reflexivity..|simpl; lia].
Defined.

(** ** The loops that look a row up *)

Lemma findRowFrom_None test i rows :
  findRowFrom test i rows = None ↔ Forall (λ r, test r = false) rows.
Proof.
  revert i. induction rows as [|r rows IH]; intros i; simpl; [by split|].
  destruct (test r) eqn:E.
  - split; [done|]. inversion 1. congruence.
  - rewrite IH. split; [by constructor|by inversion 1].
Qed.

(** X6.  The loops that look a loan up report no row exactly when no row
    of the sheet passes the test, and otherwise the first row that passes,
    with its index: duplicates of an identifier resolve to the earliest
    row. *)
Theorem findRow_first (test : row → bool) (rows : list row) :
  (findRow test rows = None ↔ Forall (λ r, test r = false) rows)
  ∧ ∀ i r, findRow test rows = Some (i, r) →
      0 ≤ i ∧ rows !! Z.to_nat i = Some r ∧ test r = true
      ∧ ∀ k b, (k < Z.to_nat i)%nat → rows !! k = Some b → test b = false.
Proof.
  split; [apply findRowFrom_None|].
  intros i r H. apply findRowFrom_Some in H.
  by rewrite Z.sub_0_r in H.
Qed.

(** ** The ordinal on four digits *)

Lemma trimLeftByte_zeros k s :
  trimLeftByte "0" (zeros k +:+ s) = trimLeftByte "0" s.
Proof. induction k as [|k IH]; [done|]. exact IH. Qed.

(** X7.  A loan is announced and stored under its ordinal on four digits
    ([%04d]); the handlers that set the leading zeros aside find the same
    row for that text and for the plain decimal text of the ordinal. *)
Theorem padded_ordinal_matches (n : Z) (rows : list row) :
  0 ≤ n →
  findRow (tolerantMatch (pad04 n)) rows
  = findRow (tolerantMatch (Itoa n)) rows.
Proof.
  intros H. apply tolerantMatch_zeros. unfold pad04.
  replace (n <? 0) with false by (symmetry; apply Z.ltb_ge; lia).
  rewrite Z.abs_eq by done.
  change ("" +:+ ?x) with x. apply trimLeftByte_zeros.
Qed.

Lemma padded_ordinal_matches_witness :
  findRow (tolerantMatch "0007") [pinjaman7]
  = findRow (tolerantMatch "7") [pinjaman7].
Proof.
  apply (padded_ordinal_matches 7 [pinjaman7]). lia.
Defined.

(** ** When the sender refuses a number *)

(** X8.  [kirimPesanWaBangkit] sends nothing exactly when the number
    normalises to the empty string: the normaliser returns either that or
    a number that begins with 62, so the test of the prefix made by the
    sender and by its callers is the test of emptiness. *)
Theorem kirimPesanWaBangkit_refuses_empty (w : World) (tr : trace)
    (no : string) (pesan : message) :
  (posts (added tr (kirimPesanWaBangkit no pesan w tr).2) = []
   ↔ normalizePhoneNumber no = "")
  ∧ (tidakValid (normalizePhoneNumber no) = true
     ↔ normalizePhoneNumber no = "").
Proof.
  unfold kirimPesanWaBangkit.
  destruct (normalizePhoneNumber_cases no) as [E|(t & E & _)]; rewrite E.
  - unfold added, mret, M_ret. cbn. rewrite drop_all. done.
  - change (negb (HasPrefix (String "6" (String "2" t)) "62")) with false.
    cbv iota. unfold mbind, M_bind, post, mret, M_ret.
    destruct (wa_post w tr _ pesan) as [|code]; [|destruct (300 <=? code)];
      cbn [snd]; rewrite added_app; done.
Qed.

(** ** The acknowledgment comes first *)

Ltac state_tac T :=
  repeat match goal with
         | K : ?a = ?b |- _ =>
             is_var b; lazymatch type of b with T => subst b end
         end.

Ltac bool_var_tac :=
  repeat match goal with
         | K : negb ?b = _ |- _ =>
             is_var b; destruct b; cbn [negb] in K; try discriminate K;
             clear K
         end.

Lemma handlePinjam_ack w q :
  wp w (ackStep "Data berhasil diterima dan sedang diproses")
    (handlePinjam q) (λ _ acked, acked = true) false.
Proof.
  wp_unfold.
  wp_walk (@eq bool) ltac:(forget_answers; same_name; state_tac bool).
  all: done.
Qed.

Lemma handlePengembalian_ack w q :
  rq_method q = "POST" →
  wp w (ackStep "Data pengembalian berhasil diterima dan sedang diproses")
    (handlePengembalian q) (λ _ acked, acked = true) false.
Proof.
  intros H. wp_unfold. rewrite H.
  change (String.eqb "POST" "OPTIONS") with false.
  change (String.eqb "POST" "POST") with true. cbn [negb].
  wp_walk (@eq bool) ltac:(forget_answers; state_tac bool).
  all: done.
Qed.

Lemma ackStep_after ack new s :
  monitor (ackStep ack) true new = Some s → s = true ∧ replies new = [].
Proof.
  induction new as [|e new IH]; simpl; [by intros [= <-]|].
  destruct e; simpl; try done; intros [-> H]%IH; done.
Qed.

Lemma ackStep_sound ack new :
  monitor (ackStep ack) false new = Some true →
  ∃ pre rest,
    new = pre ++ Reply 200 ack :: rest
    ∧ Forall (λ e, ∃ filename, e = SaveFile filename) pre
    ∧ replies rest = [].
Proof.
  induction new as [|e new IH]; simpl; [done|].
  destruct e as [|status body|filename| | | | | |]; simpl; try done.
  - destruct (status =? 200) eqn:Es; [|done].
    destruct (String.eqb body ack) eqn:Eb; [|done]. cbn.
    apply Z.eqb_eq in Es as ->. apply String.eqb_eq in Eb as ->.
    intros [_ H]%ackStep_after. by exists [], new.
  - intros (pre & rest & -> & Hp & Hr)%IH.
    exists (SaveFile filename :: pre), rest.
    repeat split; [|done]. constructor; [by eexists|done].
Qed.

(** X9.  A submission, and a return sent by POST, are acknowledged before
    anything else than the staging of the uploaded photo happens: the
    acknowledgment is the only reply of the run and it precedes every read
    or write of the ledger, every document and every notification,
    whatever fails later. *)
Theorem acknowledged_first (w : World) (r : request) :
  match r with
  | ReqPinjam _ => True
  | ReqPengembalian q => rq_method q = "POST"
  | _ => False
  end →
  let ack := match r with
             | ReqPinjam _ => "Data berhasil diterima dan sedang diproses"
             | _ => "Data pengembalian berhasil diterima dan sedang diproses"
             end in
  ∃ pre rest,
    (run (serve r) w).2 = pre ++ Reply 200 ack :: rest
    ∧ Forall (λ e, ∃ filename, e = SaveFile filename) pre
    ∧ replies rest = [].
Proof.
  intros H ack. subst ack. destruct r as [q|q|q|q]; try done; cbn [serve].
  - destruct (wp_run w _ _ _ _ (handlePinjam_ack w q)) as (s & Hm & ->).
    by apply ackStep_sound.
  - destruct (wp_run w _ _ _ _ (handlePengembalian_ack w q H))
      as (s & Hm & ->).
    by apply ackStep_sound.
Qed.

Lemma acknowledged_first_witness :
  ∃ pre rest,
    (run (serve (ReqPengembalian kembali7))
       (calmWorld (sheetsOf [pinjaman7] satuPersetujuan []))).2
    = pre ++ Reply 200 "Data pengembalian berhasil diterima dan sedang diproses"
             :: rest
    ∧ Forall (λ e, ∃ filename, e = SaveFile filename) pre
    ∧ replies rest = [].
Proof.
  apply (acknowledged_first
           (calmWorld (sheetsOf [pinjaman7] satuPersetujuan []))
           (ReqPengembalian kembali7)).
  reflexivity.
Defined.

(** ** Notifications follow the record *)

Lemma serve_notify w r : wp w notifyStep (serve r) (λ _ _, True) false.
Proof.
  destruct r; wp_unfold;
    wp_walk (@eq bool)
      ltac:(forget_answers; same_name; state_tac bool; bool_var_tac).
  all: done.
Qed.

Lemma notifyStep_sound new : ∀ written s,
  monitor notifyStep written new = Some s →
  ∀ pre number pesan res rest,
    new = pre ++ HttpPost number pesan res :: rest →
    written = true ∨ Exists (λ u, u.2 = true) (updates pre).
Proof.
  induction new as [|e new IH]; intros written s Hm pre number pesan res rest E.
  { by destruct pre. }
  destruct pre as [|e' pre]; simplify_eq/=.
  { destruct written; [by left|done]. }
  destruct e' as [| | | | | |at_ values ok| |]; simpl in *;
    try (by eapply IH).
  - destruct (IH _ _ Hm _ _ _ _ _ eq_refl) as [H|H].
    + apply orb_true_iff in H as [->| ->]; [by left|].
      right. by constructor.
    + right. by constructor 2.
  - destruct written; [by left|done].
Qed.

(** X10.  Whatever the request and whatever the collaborators answer, a
    notification is sent only after the ledger has accepted a write of the
    run: a submission, an approval or a return whose record could not be
    written notifies nobody. *)
Theorem notified_after_write (w : World) (r : request)
    (pre rest : trace) (number : string) (pesan : message)
    (res : postResult) :
  (run (serve r) w).2 = pre ++ HttpPost number pesan res :: rest →
  Exists (λ u, u.2 = true) (updates pre).
Proof.
  intros E.
  destruct (wp_run w _ _ _ _ (serve_notify w r)) as (s & Hm & _).
  by destruct (notifyStep_sound _ _ _ Hm _ _ _ _ _ E).
Qed.

Lemma notified_after_write_witness :
  let tr := (run (serve (ReqApprovalRequestNew (setujui "7")))
               (calmWorld (sheetsOf [pinjaman7] satuPersetujuan []))).2 in
  Exists (λ u, u.2 = true) (updates (take 4 tr)).
Proof.
  intros tr.
  apply (notified_after_write
           (calmWorld (sheetsOf [pinjaman7] satuPersetujuan []))
           (ReqApprovalRequestNew (setujui "7")) (take 4 tr) (drop 5 tr)
           "6281234567890"
           {| msg_text := "approval-peminjam";
              msg_args := ["Selamat pagi"; "Budi"; "Kamera"; "3";
                           "2025-01-10"; "2025-01-15"; "Approved";
                           "Pak Hasan";
                           "https://drive.google.com/uc?id=pdf"] |}
           (PostStatus 200)).
  vm_compute. reflexivity.
Defined.

(** ** How much a pipeline does *)

Ltac tally_tac :=
  forget_answers; same_name;
  repeat match goal with
         | K : oneSendMore _ ?b |- _ =>
             is_var b; destruct b as [[? ?] ?]; unfold oneSendMore in K;
             cbn [fst snd] in K; destruct K as (-> & -> & K)
         end.

(** The walk of [wp_walk], except at a block that branches: the block is
    first tried as one that leaves the state of the monitor as it is, and
    only then taken with the relation [rel]. *)
Ltac wp_count rel tac :=
  cbv beta iota zeta;
  lazymatch goal with
  | |- wp _ _ ?m _ ?s =>
      lazymatch m with
      | mbind _ ?m1 =>
          lazymatch m1 with
          | mbind _ _ => apply wp_bind_assoc; wp_count rel tac
          | match _ with _ => _ end =>
              first
                [ eapply (wp_bind_mid _ _ _ _ (λ _ s', s' = s));
                  [wp_count rel tac;
                   lazymatch goal with
                   | |- @eq _ _ _ => reflexivity
                   | |- _ => idtac
                   end
                  | intros ? ? ->; wp_count rel tac]
                | eapply (wp_bind_mid _ _ _ _ (λ _ s', rel s s'));
                  [wp_count rel tac | intros ? ? ?; tac; wp_count rel tac] ]
          | _ => apply wp_bind; wp_count rel tac
          end
      | mret _ => apply wp_ret; wp_count rel tac
      | return_ => apply wp_return; cbv beta iota zeta
      | panic => apply wp_panic; cbv beta iota zeta
      | emit _ => apply wp_emit; wp_event tac; wp_count rel tac
      | getServices =>
          apply wp_getServices; intros ? ? ?; tac; wp_count rel tac
      | askWorld => apply wp_askWorld; wp_count rel tac
      | timeNowFormat _ =>
          apply wp_timeNowFormat; intros ?; wp_count rel tac
      | osGetenv _ => apply wp_osGetenv; intros ?; wp_count rel tac
      | getSalam => apply wp_getSalam; intros ?; wp_count rel tac
      | valuesGet _ =>
          apply wp_valuesGet; intros ? ? ?; wp_event tac; wp_count rel tac
      | valuesUpdate _ _ =>
          apply wp_valuesUpdate; intros ? ? ?; wp_event tac;
          wp_count rel tac
      | uploadToDrive _ =>
          apply wp_uploadToDrive; intros ? ? ?; wp_event tac;
          wp_count rel tac
      | saveFileLocally _ =>
          apply wp_saveFileLocally; intros ?; wp_event tac; wp_count rel tac
      | renderDocument _ =>
          apply wp_renderDocument; intros ? ? ?; wp_event tac;
          wp_count rel tac
      | post _ _ => apply wp_post; intros ?; wp_event tac; wp_count rel tac
      | match ?x with _ => _ end =>
          destruct x eqn:?; tac; wp_count rel tac
      | _ => idtac
      end
  | |- _ => idtac
  end.

Lemma runPipeline_tally w p :
  wp w tallyStep (runPipeline p)
    (λ _ n, (n.1.1 ≤ 1 ∧ n.1.2 ≤ 1 ∧ n.2 ≤ 2)%nat) (0, 0, 0)%nat.
Proof.
  destruct p; cbn [runPipeline]; wp_unfold; wp_count oneSendMore tally_tac.
  all: unfold oneSendMore; cbn [fst snd]; lia.
Qed.

Lemma tallyStep_sound new : ∀ n n',
  monitor tallyStep n new = Some n' →
  n' = (n.1.1 + length (updates new), n.1.2 + length (renders new),
        n.2 + length (posts new))%nat.
Proof.
  induction new as [|e new IH]; intros [[a b] c] n'; simpl.
  { intros [= <-]. f_equal; [f_equal|]; lia. }
  destruct e; simpl; intros ->%IH; simpl;
    rewrite <- ?Nat.add_succ_r; reflexivity.
Qed.

(** X11.  Whatever the collaborators answer, one run of a pipeline asks
    for at most one write of the ledger and at most one document, and
    sends at most two messages. *)
Theorem pipeline_does_little (w : World) (p : pipeline) (tr : trace) :
  let new := added tr (runPipeline p w tr).2 in
  (length (updates new) ≤ 1 ∧ length (renders new) ≤ 1
   ∧ length (posts new) ≤ 2)%nat.
Proof.
  intros new. subst new.
  destruct (runPipeline_tally w p tr) as (new & n & -> & Hm & H).
  rewrite added_app. apply tallyStep_sound in Hm as ->. exact H.
Qed.

(** ** The number on the loan document *)

Ltac number_tac :=
  forget_answers; same_name; state_tac (option string);
  try (cbn [numberStep rr_replacements]; unfold baseReplacements;
       rewrite lookup_insert_eq; cbn [head];
       rewrite bool_decide_eq_true_2 by done).

Lemma pinjamWorker_number w form localPath sheetData :
  wp w numberStep (pinjamWorker form localPath sheetData) (λ _ _, True) None.
Proof.
  wp_unfold. wp_walk (@eq (option string)) number_tac.
  all: done.
Qed.

Lemma numberStep_state new : ∀ nmr s,
  monitor numberStep nmr new = Some s →
  s = match last (renders new) with
      | Some req => rr_replacements req !! "<<NMR>>"
      | None => nmr
      end.
Proof.
  induction new as [|e new IH]; intros nmr s; simpl; [by intros [= <-]|].
  destruct e; simpl; try (by intros ->%IH).
  - destruct nmr as [n|]; [|done]. case_bool_decide; [|done].
    by intros ->%IH.
  - intros ->%IH. rewrite last_cons. by destruct (last (renders new)).
Qed.

Lemma numberStep_sound new : ∀ nmr s,
  monitor numberStep nmr new = Some s →
  ∀ pre at_ values ok rest,
    new = pre ++ SheetsUpdate at_ values ok :: rest →
    is_Some (head values)
    ∧ head values = match last (renders pre) with
                    | Some req => rr_replacements req !! "<<NMR>>"
                    | None => nmr
                    end.
Proof.
  intros nmr s Hm pre at_ values ok rest ->.
  rewrite monitor_app in Hm.
  destruct (monitor numberStep nmr pre) as [s1|] eqn:E1; [|done].
  apply numberStep_state in E1 as ->. simpl in Hm.
  destruct (match last (renders pre) with
            | Some req => rr_replacements req !! "<<NMR>>"
            | None => nmr
            end) as [n|]; [|done].
  case_bool_decide as Hh; [|done]. by rewrite Hh.
Qed.

(** X12.  In a submission, the row written to the loan sheet starts with
    the number that was put at the placeholder of the number in the
    document rendered just before: the identifier stored in the ledger is
    the one printed on the form, and no row is written before a document
    has been asked for. *)
Theorem pinjam_row_carries_document_number (w : World) (tr : trace)
    (form : FormData) (localPath : string) (sheetData : option ValueRange)
    (pre rest : trace) (at_ : cellRef) (values : list string) (ok : bool) :
  added tr (pinjamWorker form localPath sheetData w tr).2
  = pre ++ SheetsUpdate at_ values ok :: rest →
  ∃ req, last (renders pre) = Some req
         ∧ is_Some (head values)
         ∧ rr_replacements req !! "<<NMR>>" = head values.
Proof.
  intros E.
  destruct (pinjamWorker_number w form localPath sheetData tr)
    as (new & s & E' & Hm & _).
  rewrite E', added_app in E. subst new.
  destruct (numberStep_sound _ _ _ Hm _ _ _ _ _ eq_refl) as [Hs Hh].
  destruct (last (renders pre)) as [req|]; [by exists req|].
  rewrite Hh in Hs. by destruct Hs.
Qed.

Lemma pinjam_row_carries_document_number_witness :
  let tr := (pinjamWorker contohForm "" None (calmWorld duaBaris) []).2 in
  ∃ req, last (renders (take 2 tr)) = Some req
         ∧ is_Some (head ["0003"; "2025-01-10"; "Budi"; "XI RPL"; "1234";
                          "081234567890"; "Kamera"; "3"; "2025-01-10";
                          "2025-01-15"; "Praktik"; "5 hari"; "";
                          "https://drive.google.com/uc?id=pdf";
                          "https://docs.google.com/document/d/doc/edit"; ""])
         ∧ rr_replacements req !! "<<NMR>>" = Some "0003".
Proof.
  intros tr.
  apply (pinjam_row_carries_document_number (calmWorld duaBaris) []
           contohForm "" None (take 2 tr) (drop 3 tr)
           (formPeminjam colA 7)
           ["0003"; "2025-01-10"; "Budi"; "XI RPL"; "1234"; "081234567890";
            "Kamera"; "3"; "2025-01-10"; "2025-01-15"; "Praktik"; "5 hari";
            ""; "https://drive.google.com/uc?id=pdf";
            "https://docs.google.com/document/d/doc/edit"; ""] true).
  vm_compute. reflexivity.
Defined.

(** ** When a collaborator is not there *)

Ltac answers_tac H :=
  repeat match goal with
         | K : _ = credentials_ok _ _ |- _ =>
             first [ rewrite H in K; subst | clear K ]
         | K : _ = render _ _ _ |- _ =>
             first [ rewrite H in K; subst | clear K ]
         end;
  forget_answers; same_name;
  try match goal with
      | K : negb false = false |- _ => discriminate K
      end.

Lemma serve_no_credentials w r :
  (∀ h, credentials_ok w h = false) →
  wp w (only isLocal) (serve r) (λ _ _, True) ().
Proof.
  intros H. destruct r; wp_unfold;
    wp_walk (λ _ _ : unit, True) ltac:(answers_tac H).
  all: done.
Qed.

(** X13.  When the credentials cannot be read, no handler reaches a
    collaborator: whatever the request, the run only replies to the
    caller, logs, and stages the uploaded photo; it reads and writes no
    sheet, asks for no document, uploads nothing and sends nothing. *)
Theorem no_credentials_no_calls (w : World) (r : request) :
  (∀ h, credentials_ok w h = false) →
  Forall (λ e, isLocal e = true) (run (serve r) w).2.
Proof.
  intros H.
  destruct (wp_run w _ _ _ _ (serve_no_credentials w r H)) as ([] & Hm & _).
  by apply only_Forall.
Qed.

Lemma no_credentials_no_calls_witness :
  Forall (λ e, isLocal e = true)
    (run (serve (ReqPinjam pinjamKamera))
       (noCredentials (sheetsOf [pinjaman7] [] []))).2.
Proof.
  apply (no_credentials_no_calls (noCredentials (sheetsOf [pinjaman7] [] []))
           (ReqPinjam pinjamKamera)).
  reflexivity.
Defined.

Lemma runPipeline_no_documents w p :
  (∀ h req, render w h req = None) →
  wp w (only noWriteNoSend) (runPipeline p) (λ r _, r ≠ Done ()) ().
Proof.
  intros H. destruct p; cbn [runPipeline]; wp_unfold;
    wp_walk (λ _ _ : unit, True) ltac:(answers_tac H).
  all: done.
Qed.

(** X14.  When the document service fails, a pipeline stops before its
    record: it does not run to its end, writes nothing to the ledger and
    notifies nobody. *)
Theorem no_document_no_record (w : World) (p : pipeline) (tr : trace) :
  (∀ h req, render w h req = None) →
  let out := runPipeline p w tr in
  out.1 ≠ Done ()
  ∧ updates (added tr out.2) = []
  ∧ posts (added tr out.2) = [].
Proof.
  intros H out. subst out.
  destruct (runPipeline_no_documents w p H tr) as (new & [] & -> & Hm & Hr).
  rewrite added_app. apply only_Forall in Hm. split; [done|].
  split; [apply updates_none|apply posts_none];
    (eapply Forall_impl; [exact Hm|]); intros e He;
    unfold noWriteNoSend in He; apply andb_prop in He as [H1 H2];
    by apply negb_true_iff.
Qed.

Lemma no_document_no_record_witness :
  let out := runPipeline (Return "7" "Baik" "" "")
               (noDocuments (sheetsOf [pinjaman7] satuPersetujuan [])) [] in
  out.1 ≠ Done ()
  ∧ updates (added [] out.2) = []
  ∧ posts (added [] out.2) = [].
Proof.
  apply (no_document_no_record
           (noDocuments (sheetsOf [pinjaman7] satuPersetujuan []))
           (Return "7" "Baik" "" "") []).
  reflexivity.
Defined.

(** ** The second pass of the normaliser *)

Lemma append_cons c r b : String c r +:+ b = String c (r +:+ b).
Proof. reflexivity. Qed.

Lemma trimLeftSpace_app_fuel b n : ∀ a,
  (String.length a ≤ n)%nat → allSpace a = true →
  trimLeftSpace (a +:+ b) = trimLeftSpace b.
Proof.
  unfold allSpace.
  induction n as [|n IH]; intros [|c r] Hn H; simpl in Hn; try done; try lia.
  rewrite append_cons. simpl in *.
  destruct (isAsciiSpace c); [apply IH; [lia|done]|].
  destruct r as [|d r2]; [done|]. rewrite append_cons. simpl in *.
  destruct (isSpace2 c d); [apply IH; [lia|done]|].
  destruct r2 as [|e r3]; [done|]. rewrite append_cons. simpl in *.
  destruct (isSpace3 c d e); [apply IH; [lia|done]|done].
Qed.

Lemma allSpace_app a b :
  allSpace a = true → allSpace b = true → allSpace (a +:+ b) = true.
Proof.
  intros Ha Hb. unfold allSpace.
  rewrite (trimLeftSpace_app_fuel b (String.length a)) by done.
  exact Hb.
Qed.

Lemma trimRightSpace_split s :
  ∃ t, s = trimRightSpace s +:+ t ∧ allSpace t = true.
Proof.
  induction s as [|c r (t & Hr & Ht)]; [by exists ""|].
  change (trimRightSpace (String c r))
    with (if allSpace (String c r) then EmptyString
          else String c (trimRightSpace r)).
  destruct (allSpace (String c r)) eqn:E; [by exists (String c r)|].
  exists t. split; [|done]. rewrite append_cons. by rewrite <- Hr.
Qed.

Lemma trimRightSpace_idempotent s :
  trimRightSpace (trimRightSpace s) = trimRightSpace s.
Proof.
  induction s as [|c r IH]; [done|].
  change (trimRightSpace (String c r))
    with (if allSpace (String c r) then EmptyString
          else String c (trimRightSpace r)).
  destruct (allSpace (String c r)) eqn:E; [done|].
  change (trimRightSpace (String c (trimRightSpace r)))
    with (if allSpace (String c (trimRightSpace r)) then EmptyString
          else String c (trimRightSpace (trimRightSpace r))).
  rewrite IH.
  destruct (allSpace (String c (trimRightSpace r))) eqn:E'; [|done].
  destruct (trimRightSpace_split r) as (t & Hr & Ht).
  rewrite Hr, <- append_cons, allSpace_app in E; done.
Qed.

(** X15.  A handler normalises the number of the borrower and hands the
    result to the sender, which normalises it again.  One pass is not
    always enough, two are: the result of the second pass is a fixed point
    of the normaliser, and the number a message is sent to after both
    passes is one. *)
Theorem normalizePhoneNumber_second_pass (w : World) (tr : trace)
    (no : string) (pesan : message) :
  let twice := normalizePhoneNumber (normalizePhoneNumber no) in
  normalizePhoneNumber twice = twice
  ∧ Forall (λ p, p.1 = twice ∧ normalizePhoneNumber p.1 = p.1)
      (posts (added tr
                (kirimPesanWaBangkit (normalizePhoneNumber no) pesan w tr).2)).
Proof.
  intros twice.
  assert (normalizePhoneNumber twice = twice) as Hfix.
  { unfold twice. rewrite !normalizePhoneNumber_twice.
    apply trimRightSpace_idempotent. }
  split; [done|].
  unfold kirimPesanWaBangkit. fold twice.
  destruct (HasPrefix twice "62"); cbn [negb].
  - unfold mbind, M_bind, post, mret, M_ret.
    destruct (wa_post w tr twice pesan) as [|code];
      [|destruct (300 <=? code)]; cbn [snd]; rewrite added_app;
      by repeat constructor.
  - unfold added, mret, M_ret. cbn [snd]. rewrite drop_all. constructor.
Qed.

Lemma borrowerStable_twice x pesan res :
  borrowerStable
    (HttpPost (normalizePhoneNumber (normalizePhoneNumber x)) pesan res)
  = true.
Proof.
  unfold borrowerStable.
  rewrite !normalizePhoneNumber_twice, trimRightSpace_idempotent.
  rewrite String.eqb_refl. apply orb_true_r.
Qed.

Lemma borrowerStable_other number pesan res :
  toBorrower pesan = false →
  borrowerStable (HttpPost number pesan res) = true.
Proof. intros H. unfold borrowerStable. by rewrite H. Qed.

Ltac stable_tac :=
  forget_answers; same_name;
  try (unfold only;
       first [ rewrite borrowerStable_twice
             | rewrite borrowerStable_other by reflexivity ]).

Lemma serve_borrowerStable w r :
  wp w (only borrowerStable) (serve r) (λ _ _, True) ().
Proof.
  destruct r; wp_unfold; wp_walk (λ _ _ : unit, True) ltac:(stable_tac).
  all: done.
Qed.

(** X16.  Whatever the request, a message for the borrower goes to a
    number that the normaliser leaves as it is: every handler normalises
    the number of the borrower before it hands it to the sender. *)
Theorem borrower_number_stable (w : World) (r : request) :
  Forall (λ p, toBorrower p.2 = true → normalizePhoneNumber p.1 = p.1)
    (posts (run (serve r) w).2).
Proof.
  destruct (wp_run w _ _ _ _ (serve_borrowerStable w r)) as ([] & H & _).
  apply only_Forall in H. apply posts_Forall.
  eapply Forall_impl; [exact H|]. intros [| | | | | | | |number pesan res];
    try done.
  unfold borrowerStable. cbn [fst snd]. intros E Hb. rewrite Hb in E.
  by apply String.eqb_eq in E.
Qed.

(** ** The staged photo *)

Ltac stage_tac :=
  forget_answers; same_name; state_tac (option string);
  try (cbn [stageStep]; rewrite String.eqb_refl).

Lemma serve_stage w r :
  wp w stageStep (serve r) (λ _ pending, pending = None) None.
Proof.
  destruct r; wp_unfold; wp_walk (@eq (option string)) stage_tac.
  all: done.
Qed.

Lemma stageStep_pending rest : ∀ p,
  monitor stageStep (Some p) rest = Some None →
  ∃ logs rest', rest = logs ++ RemoveFile p :: rest'
                ∧ Forall (λ e, ∃ line, e = Log line) logs.
Proof.
  induction rest as [|e rest IH]; intros p; simpl; [done|].
  destruct e; simpl; try done.
  - intros (logs & rest' & -> & H)%IH.
    exists (Log line :: logs), rest'. split; [done|]. constructor; eauto.
  - destruct (String.eqb_spec p localPath) as [->|]; [|done].
    intros _. by exists [], rest.
Qed.

Lemma stageStep_sound new : ∀ s,
  monitor stageStep s new = Some None →
  ∀ pre p ok rest,
    new = pre ++ Upload p ok :: rest →
    ∃ logs rest', rest = logs ++ RemoveFile p :: rest'
                  ∧ Forall (λ e, ∃ line, e = Log line) logs.
Proof.
  intros s Hm pre p ok rest ->. rewrite monitor_app in Hm.
  destruct (monitor stageStep s pre) as [[q|]|]; simpl in Hm; try done.
  by apply stageStep_pending.
Qed.

(** X17.  Whatever the request and whatever the collaborators answer, a
    staged photo whose upload has been tried is removed next, whether the
    upload worked or not: between the two the run only logs. *)
Theorem staged_file_removed (w : World) (r : request)
    (pre rest : trace) (p : string) (ok : bool) :
  (run (serve r) w).2 = pre ++ Upload p ok :: rest →
  ∃ logs rest', rest = logs ++ RemoveFile p :: rest'
                ∧ Forall (λ e, ∃ line, e = Log line) logs.
Proof.
  intros E.
  destruct (wp_run w _ _ _ _ (serve_stage w r)) as (s & Hm & ->).
  by eapply stageStep_sound.
Qed.


Lemma staged_file_removed_witness :
  let tr := (run (serve (ReqPengembalian kembali7))
               (calmWorld (sheetsOf [pinjaman7] satuPersetujuan []))).2 in
  ∃ logs rest', drop 5 tr = logs ++ RemoveFile "uploads/1_kamera.jpg" :: rest'
                ∧ Forall (λ e, ∃ line, e = Log line) logs.
Proof.
  intros tr.
  apply (staged_file_removed
           (calmWorld (sheetsOf [pinjaman7] satuPersetujuan []))
           (ReqPengembalian kembali7) (take 4 tr) (drop 5 tr)
           "uploads/1_kamera.jpg" true).
  vm_compute. reflexivity.
Defined.

Lemma stageStep_before pre : ∀ p,
  monitor stageStep None pre = Some (Some p) →
  ∃ pre' ok logs, pre = pre' ++ Upload p ok :: logs
                  ∧ Forall (λ e, ∃ line, e = Log line) logs.
Proof.
  induction pre as [|e pre IH] using rev_ind; intros p; [done|].
  rewrite monitor_app.
  destruct (monitor stageStep None pre) as [[q|]|] eqn:E; simpl; [| |done].
  - destruct e; simpl; try done.
    + intros [= ->]. destruct (IH _ eq_refl) as (pre' & ok & logs & -> & H).
      exists pre', ok, (logs ++ [Log line]). rewrite <- app_assoc.
      split; [done|]. apply Forall_app. split; [done|].
      constructor; eauto.
    + by destruct (String.eqb q localPath).
  - destruct e; simpl; try done.
    intros [= ->]. by exists pre, ok, [].
Qed.

(** X18.  Nothing is removed but a staged photo whose upload has just been
    tried: a run that stops before the upload (no credentials, a loan that
    is not found) leaves the file it staged where it is. *)
Theorem removal_follows_upload (w : World) (r : request)
    (pre rest : trace) (p : string) :
  (run (serve r) w).2 = pre ++ RemoveFile p :: rest →
  ∃ pre' ok logs, pre = pre' ++ Upload p ok :: logs
                  ∧ Forall (λ e, ∃ line, e = Log line) logs.
Proof.
  intros E.
  destruct (wp_run w _ _ _ _ (serve_stage w r)) as (s & Hm & _).
  rewrite E, monitor_app in Hm.
  destruct (monitor stageStep None pre) as [[q|]|] eqn:Hp; simpl in Hm;
    try done.
  destruct (String.eqb_spec q p) as [->|]; [|done].
  by apply stageStep_before.
Qed.

Lemma removal_follows_upload_witness :
  let tr := (run (serve (ReqPinjam pinjamKamera))
               (calmWorld (sheetsOf [pinjaman7] satuPersetujuan []))).2 in
  ∃ pre' ok logs, take 4 tr = pre' ++ Upload "uploads/1_kamera.jpg" ok :: logs
                  ∧ Forall (λ e, ∃ line, e = Log line) logs.
Proof.
  intros tr.
  apply (removal_follows_upload
           (calmWorld (sheetsOf [pinjaman7] satuPersetujuan []))
           (ReqPinjam pinjamKamera) (take 4 tr) (drop 5 tr)
           "uploads/1_kamera.jpg").
  vm_compute. reflexivity.
Defined.

(** ** The quantity, written and read back *)














